(** * VocalEase: the speech request orchestrator, the WAV container and the
    generation state of the application

  A shallow embedding of [src/App.tsx] (the [App] component and the
  [generateSpeech] service that follows it in the same file) and of
  [src/types.ts].  JavaScript strings are sequences of UTF-16 code units,
  byte buffers ([Uint8Array]) are lists of bytes, promises are outcomes
  (fulfilled or rejected), and the remote service is a function from the
  request it receives to the outcome of the call. *)

From Stdlib Require Import List ZArith NArith Bool Lia.
From Stdlib Require Import Strings.String Strings.Ascii Strings.Byte.
Import ListNotations.

Local Open Scope Z_scope.

(** ** JavaScript strings *)

Module JsString.

(** A string value: its UTF-16 code units, in order. *)
Definition jsstring : Type := list N.

(** A literal of the source, all of whose characters are ASCII. *)
Definition js (s : string) : jsstring :=
  map N_of_ascii (list_ascii_of_string s).

Definition unit_eqb : N -> N -> bool := N.eqb.

(** [WhiteSpace] and [LineTerminator] of ECMAScript, the code units that
    [String.prototype.trim] strips. *)
Definition isWhiteSpace (c : N) : bool :=
  let c := Z.of_N c in
  (c =? 9) || (c =? 10) || (c =? 11) || (c =? 12) || (c =? 13) ||
  (c =? 32) || (c =? 160) || (c =? 5760) ||
  ((8192 <=? c) && (c <=? 8202)) ||
  (c =? 8232) || (c =? 8233) || (c =? 8239) || (c =? 8287) ||
  (c =? 12288) || (c =? 65279).

Fixpoint trimStart (s : jsstring) : jsstring :=
  match s with
  | [] => []
  | c :: s' => if isWhiteSpace c then trimStart s' else s
  end.

Definition trimEnd (s : jsstring) : jsstring := rev (trimStart (rev s)).

(** [s.trim()] *)
Definition trim (s : jsstring) : jsstring := trimEnd (trimStart s).

(** [s.startsWith(p)] *)
Fixpoint startsWith (s p : jsstring) : bool :=
  match p, s with
  | [], _ => true
  | _ :: _, [] => false
  | y :: p', x :: s' => unit_eqb x y && startsWith s' p'
  end.

(** [s.includes(p)] *)
Fixpoint includes (s p : jsstring) : bool :=
  startsWith s p ||
  match s with
  | [] => false
  | _ :: s' => includes s' p
  end.

(** [s.slice(0, n)] for a non-negative [n]. *)
Definition slice0 (s : jsstring) (n : nat) : jsstring := firstn n s.

(** Truthiness of a string value: every string but the empty one. *)
Definition truthy (s : jsstring) : bool :=
  match s with [] => false | _ :: _ => true end.

End JsString.
Import JsString.

(** ** Byte buffers and the fields of a [DataView] *)

Module Bytes.

(** The byte whose value is [z] modulo 256. *)
Definition byte_of_Z (z : Z) : byte :=
  match Byte.of_N (Z.to_N (z mod 256)) with
  | Some b => b
  | None => x00
  end.

Definition Z_of_byte (b : byte) : Z := Z.of_N (Byte.to_N b).

(** [view.setUint16(_, v, true)]: the value modulo 2^16, least significant
    byte first. *)
Definition u16le (v : Z) : list byte :=
  let m := v mod 65536 in
  [byte_of_Z m; byte_of_Z (m / 256)].

(** [view.setUint32(_, v, true)]: the value modulo 2^32, least significant
    byte first. *)
Definition u32le (v : Z) : list byte :=
  let m := v mod 4294967296 in
  [byte_of_Z m; byte_of_Z (m / 256); byte_of_Z (m / 65536);
   byte_of_Z (m / 16777216)].

(** The characters of an ASCII tag, one byte each. *)
Definition ascii_tag (s : string) : list byte :=
  map byte_of_ascii (list_ascii_of_string s).

(** The byte at index [i], 0 past the end. *)
Definition byteAt (buf : list byte) (i : nat) : Z :=
  Z_of_byte (nth i buf x00).

(** [view.getUint32(off, true)] *)
Definition getUint32le (buf : list byte) (off : nat) : Z :=
  byteAt buf off + 256 * byteAt buf (off + 1)
  + 65536 * byteAt buf (off + 2) + 16777216 * byteAt buf (off + 3).

End Bytes.
Import Bytes.

(** ** The audio container ([services/audioUtils], [createWavFile]) *)

Module AudioUtils.

(** Modelled from the spec: the 44-byte header that [createWavFile] of
    [services/audioUtils] writes (that file is not among the sources),
    field by field as section 4.2 lists them, every integer field
    little-endian.  The spec is silent on a size that does not fit its
    field; the model writes it modulo 2^32, as [DataView.setUint32] would,
    and the theorems on the container do not go beyond the field's range. *)
Definition wavHeader (dataLength : Z) : list byte :=
  ascii_tag "RIFF" ++ u32le (36 + dataLength) ++ ascii_tag "WAVE"
  ++ ascii_tag "fmt " ++ u32le 16 ++ u16le 1 ++ u16le 1
  ++ u32le 24000 ++ u32le (24000 * 2) ++ u16le 2
  ++ u16le 16 ++ ascii_tag "data" ++ u32le dataLength.

(** Modelled from the spec: [createWavFile] of [services/audioUtils] (not
    among the sources), the header followed by a verbatim copy of the PCM
    bytes.  The result is the content of the [audio/wav] blob. *)
Definition createWavFile (pcmBytes : list byte) : list byte :=
  wavHeader (Z.of_nat (List.length pcmBytes)) ++ pcmBytes.

End AudioUtils.
Import AudioUtils.

(** ** Values thrown and promises *)

Module Js.

(** A value thrown by the service client or by the application, with the two
    properties the code reads from it: [status] (a number, when it has one)
    and [message]. *)
Record JsError : Type := mkError {
  status : option Z;
  message : option jsstring
}.

(** [new Error(msg)]: a message and no [status]. *)
Definition newError (msg : jsstring) : JsError :=
  {| status := None; message := Some msg |}.

(** The [TypeError] thrown on reading [property] of [undefined]: no
    [status], and the message V8 gives it. *)
Definition typeErrorReading (property : jsstring) : JsError :=
  newError (js "Cannot read properties of undefined (reading '"
            ++ property ++ js "')").

(** A settled promise, or a call that returned or threw. *)
Inductive Outcome (A : Type) : Type :=
| Fulfilled (a : A)
| Rejected (e : JsError).

Arguments Fulfilled {A} a.
Arguments Rejected {A} e.

End Js.
Import Js.

(** ** [src/types.ts] *)

Module Types.

Inductive VoiceName : Type := Kore | Puck | Charon | Fenrir | Zephyr.

Inductive Language : Type := en | ml.

Record AudioGenerationState : Type := mkStatus {
  isGenerating : bool;
  audioUrl : option jsstring;
  error : option jsstring;
  rawBuffer : option (list byte)
}.

End Types.
Import Types.

(** ** The service client, as far as [generateSpeech] uses it *)

Module GenAI.

(** [inlineData] of a part; the client declares both properties
    optional. *)
Record Blob : Type := mkBlob {
  mimeType : option jsstring;
  data : option jsstring
}.

(** A part of a candidate's content: a property bag, of which the code reads
    [inlineData]. *)
Record Part : Type := mkPart {
  partText : option jsstring;
  inlineData : option Blob
}.

(** The content of a candidate; [parts] may be absent. *)
Record Content : Type := mkContent { parts : option (list Part) }.

(** A candidate; [content] may be absent, as for a blocked answer. *)
Record Candidate : Type := mkCandidate { content : option Content }.

(** The response of [ai.models.generateContent]: its [text] (read after the
    translation call) and its [candidates] (read after the synthesis call),
    either of which may be absent. *)
Record GenerateContentResponse : Type := mkResponse {
  text : option jsstring;
  candidates : option (list Candidate)
}.

(** The two requests [generateSpeech] sends: a text prompt (with
    [temperature: 0.1]) and a speech prompt (one text part, the audio
    response modality and a prebuilt voice). *)
Inductive GenerateContentParameters : Type :=
| TextPrompt (model : jsstring) (contents : jsstring)
| SpeechPrompt (model : jsstring) (partsText : jsstring) (voiceName : VoiceName).

(** The remote service behind the client: what each call settles to. *)
Definition GoogleGenAI : Type :=
  GenerateContentParameters -> Outcome GenerateContentResponse.

End GenAI.

(** ** Asynchronous code: the calls sent so far and how the code ends *)

Module Async.

Definition Async (A : Type) : Type :=
  list GenAI.GenerateContentParameters ->
  list GenAI.GenerateContentParameters * Outcome A.

Definition ret {A : Type} (a : A) : Async A := fun sent => (sent, Fulfilled a).

(** [throw e] *)
Definition throw {A : Type} (e : JsError) : Async A :=
  fun sent => (sent, Rejected e).

Definition bind {A B : Type} (m : Async A) (k : A -> Async B) : Async B :=
  fun sent =>
    match m sent with
    | (sent', Fulfilled a) => k a sent'
    | (sent', Rejected e) => (sent', Rejected e)
    end.

(** [try { body } catch (error) { handler error }] *)
Definition tryCatch {A : Type} (body : Async A) (handler : JsError -> Async A)
  : Async A :=
  fun sent =>
    match body sent with
    | (sent', Fulfilled a) => (sent', Fulfilled a)
    | (sent', Rejected e) => handler e sent'
    end.

(** Synchronous code that returns or throws, inside asynchronous code. *)
Definition evaluate {A : Type} (o : Outcome A) : Async A := fun sent => (sent, o).

(** [await ai.models.generateContent(params)] *)
Definition generateContent (ai : GenAI.GoogleGenAI)
  (params : GenAI.GenerateContentParameters)
  : Async GenAI.GenerateContentResponse :=
  fun sent => (sent ++ [params], ai params).

(** The calls an asynchronous computation sends, in order. *)
Definition calls {A : Type} (m : Async A) : list GenAI.GenerateContentParameters :=
  fst (m []).

(** What the promise settles to. *)
Definition settled {A : Type} (m : Async A) : Outcome A := snd (m []).

End Async.
Import Async.

Notation "x <- m ;; k" := (bind m (fun x => k))
  (at level 61, m at next level, right associativity).

(** ** [services/geminiService]: [generateSpeech] *)

Module GeminiService.

Definition translationModel : jsstring := js "gemini-3-flash-preview".

Definition ttsModel : jsstring := js "gemini-2.5-flash-preview-tts".

(** The template literal of the translation call: the instruction, then the
    text between two quotation marks (code unit 34). *)
Definition translationPrompt (text : jsstring) : jsstring :=
  js "Translate the following English text to natural Malayalam. Output ONLY the translation, nothing else: "
  ++ [34%N] ++ text ++ [34%N].

Definition readInMalayalam : jsstring := js "Read the following in Malayalam: ".

Definition blockedMessage : jsstring :=
  js "The request was blocked or returned no results. Please try a different sentence.".

Definition couldNotProcessMessage : jsstring :=
  js "The speech engine could not process this text. Please try again with simpler wording.".

Definition hiccupMessage : jsstring :=
  js "Gemini server had a momentary hiccup (Error 500). Please tap 'Translate & Speak' again.".

(** [error?.status === 500] *)
Definition statusIs500 (error : JsError) : bool :=
  match status error with
  | Some n => n =? 500
  | None => false
  end.

(** [error?.message?.includes('500')], [undefined] read as false. *)
Definition messageIncludes500 (error : JsError) : bool :=
  match message error with
  | Some m => includes m (js "500")
  | None => false
  end.

(** [p => p.inlineData && p.inlineData.mimeType.startsWith('audio/')]: false
    without inline data, and a [TypeError] on inline data without a MIME
    type, which the callback reads unguarded. *)
Definition isAudioPart (p : GenAI.Part) : Outcome bool :=
  match GenAI.inlineData p with
  | Some blob =>
      match GenAI.mimeType blob with
      | Some mime => Fulfilled (startsWith mime (js "audio/"))
      | None => Rejected (typeErrorReading (js "startsWith"))
      end
  | None => Fulfilled false
  end.

(** [parts.find(callback)]: the first part, in order, on which the callback
    is true; what the callback throws on the way is thrown on. *)
Fixpoint findPart (callback : GenAI.Part -> Outcome bool)
  (parts : list GenAI.Part) : Outcome (option GenAI.Part) :=
  match parts with
  | [] => Fulfilled None
  | p :: rest =>
      match callback p with
      | Fulfilled true => Fulfilled (Some p)
      | Fulfilled false => findPart callback rest
      | Rejected e => Rejected e
      end
  end.

(** [candidate.content.parts], up to the read of [find]: a [TypeError] when
    [content] or [parts] is absent, neither being guarded. *)
Definition contentParts (candidate : GenAI.Candidate)
  : Outcome (list GenAI.Part) :=
  match GenAI.content candidate with
  | None => Rejected (typeErrorReading (js "parts"))
  | Some content =>
      match GenAI.parts content with
      | None => Rejected (typeErrorReading (js "find"))
      | Some parts => Fulfilled parts
      end
  end.

(** [response.candidates?.[0]] *)
Definition firstCandidate (response : GenAI.GenerateContentResponse)
  : option GenAI.Candidate :=
  match GenAI.candidates response with
  | Some (candidate :: _) => Some candidate
  | Some [] => None
  | None => None
  end.

(** Step 1 of [generateSpeech]: the text to synthesize.  Only for ['ml'] is
    the translation call made; its [text], trimmed, replaces the input when
    it is truthy, and a failure of the call is caught (and logged to the
    console, which is not modelled) and answered by the prefixed input. *)
Definition resolveTargetText (ai : GenAI.GoogleGenAI) (text : jsstring)
  (language : Language) : Async jsstring :=
  match language with
  | ml =>
      tryCatch
        (translationResponse <-
           generateContent ai
             (GenAI.TextPrompt translationModel (translationPrompt text)) ;;
         match option_map trim (GenAI.text translationResponse) with
         | Some translated => if truthy translated then ret translated else ret text
         | None => ret text
         end)
        (fun _ => ret (readInMalayalam ++ text))
  | en => ret text
  end.

(** Step 2 of [generateSpeech]: the synthesis call, the first candidate, its
    first audio part and that part's payload, inside the [try] whose [catch]
    rewrites errors of status 500 or with 500 in their message. *)
Definition synthesize (ai : GenAI.GoogleGenAI) (targetText : jsstring)
  (voiceName : VoiceName) : Async jsstring :=
  tryCatch
    (response <-
       generateContent ai (GenAI.SpeechPrompt ttsModel targetText voiceName) ;;
     match firstCandidate response with
     | None => throw (newError blockedMessage)
     | Some candidate =>
         parts <- evaluate (contentParts candidate) ;;
         audioPart <- evaluate (findPart isAudioPart parts) ;;
         let base64Audio :=
           match audioPart with
           | Some p =>
               match GenAI.inlineData p with
               | Some blob => GenAI.data blob
               | None => None
               end
           | None => None
           end in
         match base64Audio with
         | Some payload =>
             if truthy payload then ret payload
             else throw (newError couldNotProcessMessage)
         | None => throw (newError couldNotProcessMessage)
         end
     end)
    (fun error =>
       if statusIs500 error || messageIncludes500 error
       then throw (newError hiccupMessage)
       else throw error).

Definition generateSpeech (ai : GenAI.GoogleGenAI) (text : jsstring)
  (voiceName : VoiceName) (language : Language) : Async jsstring :=
  targetText <- resolveTargetText ai text language ;;
  synthesize ai targetText voiceName.

End GeminiService.
Import GeminiService.

(** ** [App]: the state of the component and its event handlers *)

Module App.

(** What a call of [handleGenerate] captured when it was started. *)
Record SpeechRequest : Type := mkRequest {
  requestText : jsstring;
  requestVoice : VoiceName;
  requestLanguage : Language
}.

(** The [useState] cells of the component, and the calls of [generateSpeech]
    that were started and have not settled yet, oldest first. *)
Record AppState : Type := mkApp {
  text : jsstring;
  selectedVoice : VoiceName;
  selectedLanguage : Language;
  status : AudioGenerationState;
  inFlight : list SpeechRequest
}.

Definition idle : AudioGenerationState :=
  {| isGenerating := false; audioUrl := None; error := None; rawBuffer := None |}.

Definition initial : AppState :=
  {| text := []; selectedVoice := Zephyr; selectedLanguage := en;
     status := idle; inFlight := [] |}.

Definition connectionLost : jsstring := js "Connection lost. Please try again.".

(** [!text.trim()] *)
Definition isBlank (t : jsstring) : bool := negb (truthy (trim t)).

(** [status.isGenerating || !text.trim()], the [disabled] attribute of the
    generate button. *)
Definition generateDisabled (s : AppState) : bool :=
  isGenerating (status s) || isBlank (text s).

(** [prev => ({ ...prev, isGenerating: true, error: null, audioUrl: null,
    rawBuffer: null })] *)
Definition requesting (prev : AudioGenerationState) : AudioGenerationState :=
  {| isGenerating := true; audioUrl := None; error := None; rawBuffer := None |}.

(** [err.message || 'Connection lost. Please try again.'] *)
Definition errorText (err : JsError) : jsstring :=
  match Js.message err with
  | Some m => if truthy m then m else connectionLost
  | None => connectionLost
  end.

(** The [catch] of [handleGenerate]:
    [prev => ({ ...prev, isGenerating: false, error: ... })] *)
Definition failed (err : JsError) (prev : AudioGenerationState)
  : AudioGenerationState :=
  {| isGenerating := false; audioUrl := audioUrl prev;
     error := Some (errorText err); rawBuffer := rawBuffer prev |}.

(** [prev => ({ ...prev, audioUrl: null, rawBuffer: null, error: null })],
    on a click on a language. *)
Definition resultCleared (prev : AudioGenerationState) : AudioGenerationState :=
  {| isGenerating := isGenerating prev; audioUrl := None; error := None;
     rawBuffer := None |}.

(** [handleGenerate] up to its [await]: nothing for a blank text; otherwise
    the status becomes the requesting one and [generateSpeech] is called with
    the text, voice and language of this render. *)
Definition handleGenerate (s : AppState) : AppState :=
  if isBlank (text s) then s
  else
    {| text := text s; selectedVoice := selectedVoice s;
       selectedLanguage := selectedLanguage s;
       status := requesting (status s);
       inFlight := inFlight s
                   ++ [mkRequest (text s) (selectedVoice s) (selectedLanguage s)] |}.

(** [handleClear]: the text is emptied and the status reset (the object URL
    is revoked, for which the model keeps no state); a call in flight is
    neither cancelled nor forgotten. *)
Definition handleClear (s : AppState) : AppState :=
  {| text := []; selectedVoice := selectedVoice s;
     selectedLanguage := selectedLanguage s; status := idle;
     inFlight := inFlight s |}.

Definition selectLanguage (lang : Language) (s : AppState) : AppState :=
  {| text := text s; selectedVoice := selectedVoice s; selectedLanguage := lang;
     status := resultCleared (status s); inFlight := inFlight s |}.

Definition selectVoice (v : VoiceName) (s : AppState) : AppState :=
  {| text := text s; selectedVoice := v; selectedLanguage := selectedLanguage s;
     status := status s; inFlight := inFlight s |}.

(** [setText(e.target.value.slice(0, 500))] *)
Definition changeText (value : jsstring) (s : AppState) : AppState :=
  {| text := slice0 value 500; selectedVoice := selectedVoice s;
     selectedLanguage := selectedLanguage s; status := status s;
     inFlight := inFlight s |}.

(** What the user and the network can do to the component.  [Settle i ai]:
    the [i]-th call in flight settles, the service having answered it as
    [ai] does. *)
Inductive Event : Type :=
| ChangeText (value : jsstring)
| SelectVoice (v : VoiceName)
| SelectLanguage (lang : Language)
| ClickGenerate
| ClickClear
| Settle (i : nat) (ai : GenAI.GoogleGenAI).

Section Platform.

(** [decodeBase64] of [services/audioUtils] and [URL.createObjectURL] of the
    browser, neither of which is among the sources. *)
Variable decodeBase64 : jsstring -> Outcome (list byte).
Variable createObjectURL : list byte -> jsstring.

(** [handleGenerate] from its [await] on, given what [generateSpeech]
    settled to and the status at that time. *)
Definition resume (outcome : Outcome jsstring) (prev : AudioGenerationState)
  : AudioGenerationState :=
  match outcome with
  | Fulfilled base64 =>
      match decodeBase64 base64 with
      | Fulfilled pcmBytes =>
          {| isGenerating := false;
             audioUrl := Some (createObjectURL (createWavFile pcmBytes));
             error := None;
             rawBuffer := Some pcmBytes |}
      | Rejected err => failed err prev
      end
  | Rejected err => failed err prev
  end.

Definition settle (i : nat) (ai : GenAI.GoogleGenAI) (s : AppState) : AppState :=
  match nth_error (inFlight s) i with
  | None => s
  | Some r =>
      let outcome :=
        settled (generateSpeech ai (requestText r) (requestVoice r)
                   (requestLanguage r)) in
      {| text := text s; selectedVoice := selectedVoice s;
         selectedLanguage := selectedLanguage s;
         status := resume outcome (status s);
         inFlight := firstn i (inFlight s) ++ skipn (S i) (inFlight s) |}
  end.

(** One event.  A click on the disabled generate button is not delivered. *)
Definition step (s : AppState) (ev : Event) : AppState :=
  match ev with
  | ChangeText value => changeText value s
  | SelectVoice v => selectVoice v s
  | SelectLanguage lang => selectLanguage lang s
  | ClickGenerate => if generateDisabled s then s else handleGenerate s
  | ClickClear => handleClear s
  | Settle i ai => settle i ai s
  end.

Definition run (evs : list Event) : AppState := fold_left step evs initial.

(** The states the component can be in. *)
Definition reachable (s : AppState) : Prop := exists evs, s = run evs.

End Platform.

(** The audio result is present. *)
Definition hasAudio (st : AudioGenerationState) : Prop :=
  audioUrl st <> None \/ rawBuffer st <> None.

(** The error description is present. *)
Definition hasError (st : AudioGenerationState) : Prop := error st <> None.

End App.

(** ** Auxiliary notions and the services of the scenarios *)

(** The text Step 1 hands to Step 2. *)
Definition targetTextOf (ai : GenAI.GoogleGenAI) (text : jsstring)
  (language : Language) : jsstring :=
  match settled (resolveTargetText ai text language) with
  | Fulfilled t => t
  | Rejected _ => text
  end.

(** The calls Step 1 sends. *)
Definition translationCalls (text : jsstring) (language : Language)
  : list GenAI.GenerateContentParameters :=
  match language with
  | ml => [GenAI.TextPrompt translationModel (translationPrompt text)]
  | en => []
  end.

(** A response to the synthesis call with one candidate, whose content has
    one part, an inline blob. *)
Definition oneBlobResponse (mime payload : jsstring)
  : GenAI.GenerateContentResponse :=
  {| GenAI.text := None;
     GenAI.candidates :=
       Some [ {| GenAI.content :=
                   Some {| GenAI.parts :=
                             Some [ {| GenAI.partText := None;
                                       GenAI.inlineData :=
                                         Some {| GenAI.mimeType := Some mime;
                                                 GenAI.data := Some payload |}
                                    |} ] |} |} ] |}.

(** A service that answers every call with the same response. *)
Definition alwaysAnswers (response : GenAI.GenerateContentResponse)
  : GenAI.GoogleGenAI :=
  fun _ => Fulfilled response.

(** A service that answers the translation call with [translation] and the
    synthesis call with [audio]. *)
Definition translates (translation : jsstring)
  (audio : GenAI.GenerateContentResponse) : GenAI.GoogleGenAI :=
  fun params =>
    match params with
    | GenAI.TextPrompt _ _ =>
        Fulfilled {| GenAI.text := Some translation; GenAI.candidates := None |}
    | GenAI.SpeechPrompt _ _ _ => Fulfilled audio
    end.

(** A service whose translation call fails with [e] and whose synthesis
    call is answered with [audio]. *)
Definition translationFails (e : JsError)
  (audio : GenAI.GenerateContentResponse) : GenAI.GoogleGenAI :=
  fun params =>
    match params with
    | GenAI.TextPrompt _ _ => Rejected e
    | GenAI.SpeechPrompt _ _ _ => Fulfilled audio
    end.

(** The greeting of the translation scenario, as UTF-16 code units. *)
Definition namaskaram : jsstring :=
  [3368; 3374; 3384; 3405; 3349; 3390; 3376; 3330]%N.

(** A response whose candidate has a text part followed by two audio
    parts. *)
Definition textThenTwoAudio : GenAI.GenerateContentResponse :=
  {| GenAI.text := None;
     GenAI.candidates :=
       Some [ {| GenAI.content :=
                   Some {| GenAI.parts :=
                             Some [ {| GenAI.partText := Some (js "ok");
                                       GenAI.inlineData := None |};
                                    {| GenAI.partText := None;
                                       GenAI.inlineData :=
                                         Some {| GenAI.mimeType :=
                                                   Some (js "audio/wav");
                                                 GenAI.data :=
                                                   Some (js "AAA=") |} |};
                                    {| GenAI.partText := None;
                                       GenAI.inlineData :=
                                         Some {| GenAI.mimeType :=
                                                   Some (js "audio/wav");
                                                 GenAI.data :=
                                                   Some (js "BBB=") |} |} ]
                        |} |} ] |}.

(** Lines 322 to 334 of [generateSpeech] as a function of the synthesis
    response: the payload, or the error thrown on the way. *)
Definition readAudio (response : GenAI.GenerateContentResponse)
  : Outcome jsstring :=
  match firstCandidate response with
  | None => Rejected (newError blockedMessage)
  | Some candidate =>
      match contentParts candidate with
      | Rejected e => Rejected e
      | Fulfilled parts =>
          match findPart isAudioPart parts with
          | Rejected e => Rejected e
          | Fulfilled (Some p) =>
              match GenAI.inlineData p with
              | Some blob =>
                  match GenAI.data blob with
                  | Some payload =>
                      if truthy payload then Fulfilled payload
                      else Rejected (newError couldNotProcessMessage)
                  | None => Rejected (newError couldNotProcessMessage)
                  end
              | None => Rejected (newError couldNotProcessMessage)
              end
          | Fulfilled None => Rejected (newError couldNotProcessMessage)
          end
      end
  end.

(** The part carries inline data whose MIME type starts with audio/. *)
Definition audioMime (p : GenAI.Part) : Prop :=
  exists blob mime,
    GenAI.inlineData p = Some blob
    /\ GenAI.mimeType blob = Some mime
    /\ startsWith mime (js "audio/") = true.

(** Every inline data of the parts has a MIME type. *)
Definition mimeTyped (parts : list GenAI.Part) : Prop :=
  forall q blob,
    In q parts -> GenAI.inlineData q = Some blob -> GenAI.mimeType blob <> None.

(** A service whose every call fails with [e]. *)
Definition alwaysFails (e : JsError) : GenAI.GoogleGenAI := fun _ => Rejected e.

(** What holds as long as at most one call is in flight: the flag is set
    exactly while a call is in flight, the result is empty while it is set,
    and audio and error are never both present. *)
Definition singleFlight (s : App.AppState) : Prop :=
  (isGenerating (App.status s) = true ->
   audioUrl (App.status s) = None /\ rawBuffer (App.status s) = None
   /\ error (App.status s) = None /\ List.length (App.inFlight s) = 1%nat)
  /\ (isGenerating (App.status s) = false -> App.inFlight s = [])
  /\ ((audioUrl (App.status s) = None /\ rawBuffer (App.status s) = None)
      \/ error (App.status s) = None).

(** The clicks that start a second call while the first is in flight: a
    text, generate, clear, another text, generate. *)
Definition clearThenResubmit : list App.Event :=
  [App.ChangeText (js "a"); App.ClickGenerate; App.ClickClear;
   App.ChangeText (js "b"); App.ClickGenerate].

(** The same clicks, after which the first call is answered with audio and
    the second with an empty candidate list. *)
Definition staleSuccessThenFailure : list App.Event :=
  clearThenResubmit
  ++ [App.Settle 0 (alwaysAnswers (oneBlobResponse (js "audio/wav") (js "AAA=")));
      App.Settle 0
        (alwaysAnswers {| GenAI.text := None; GenAI.candidates := Some [] |})].

(** ** [App]: what is rendered, and the save and share handlers *)

Module View.

(** [{text.length} / 500], the number before the slash. *)
Definition counter (s : App.AppState) : nat := List.length (App.text s).

(** [selectedLanguage === 'ml' && ...], the badge over the text area. *)
Definition translationBadge (s : App.AppState) : bool :=
  match App.selectedLanguage s with ml => true | en => false end.

(** [status.error && ...]: the text of the error panel, when it is
    rendered. *)
Definition errorPanel (s : App.AppState) : option jsstring :=
  match error (App.status s) with
  | Some m => if truthy m then Some m else None
  | None => None
  end.

(** The result panel: the version line, the source of the audio element
    and whether the share button is rendered beside the save button. *)
Record AudioPanel : Type := mkAudioPanel {
  versionLabel : jsstring;
  audioSrc : jsstring;
  shareOffered : bool
}.

(** [status.audioUrl && ...], with [canShareFiles] of the browser. *)
Definition audioPanel (canShareFiles : bool) (s : App.AppState)
  : option AudioPanel :=
  match audioUrl (App.status s) with
  | Some url =>
      if truthy url
      then Some {| versionLabel :=
                     match App.selectedLanguage s with
                     | ml => js "Malayalam Version"
                     | en => js "English Version"
                     end;
                   audioSrc := url;
                   shareOffered := canShareFiles |}
      else None
  | None => None
  end.

(** The text of the generate button. *)
Definition generateLabel (s : App.AppState) : jsstring :=
  if isGenerating (App.status s) then js "Converting..."
  else
    match App.selectedLanguage s with
    | ml => js "Translate & Speak"
    | en => js "Generate Voice"
    end.

End View.

Module Handlers.

(** [handleDownload]: nothing without an audio URL; otherwise the [href] and
    the [download] name of the anchor that is clicked.  [stamp] is the text
    of [Date.now()]. *)
Definition handleDownload (stamp : jsstring) (s : App.AppState)
  : option (jsstring * jsstring) :=
  match audioUrl (App.status s) with
  | Some url =>
      if truthy url
      then Some (url, js "vocal-ease-" ++ stamp ++ js ".wav")
      else None
  | None => None
  end.

(** What [handleShare] does. *)
Inductive ShareAction : Type :=
| ShareNothing
| ShareFile (fileName : jsstring) (bytes : list byte) (title text : jsstring)
| ShareUnsupported (alertText : jsstring).

(** [handleShare]: nothing without a raw buffer; otherwise the container is
    built again from the raw buffer and, when the browser can share the
    file ([navigator.canShare && navigator.canShare({ files: [file] })]),
    handed to [navigator.share]; an alert otherwise.  The status is not
    touched, whatever [navigator.share] settles to. *)
Definition handleShare (canShare : list byte -> bool) (stamp : jsstring)
  (s : App.AppState) : ShareAction :=
  match rawBuffer (App.status s) with
  | None => ShareNothing
  | Some raw =>
      let wavBlob := createWavFile raw in
      if canShare wavBlob
      then ShareFile (js "voice-" ++ stamp ++ js ".wav") wavBlob
             (js "VocalEase Voice Note")
             (js "Listen to this voice message generated via VocalEase.")
      else ShareUnsupported
             (js "Sharing is not supported on this browser. Use the Save button.")
  end.

End Handlers.

(** ** Invariants of the component *)

(** A call of [generateSpeech] the component may start: a text that is not
    blank and has at most 500 code units. *)
Definition submittable (r : App.SpeechRequest) : Prop :=
  trim (App.requestText r) <> []
  /\ (List.length (App.requestText r) <= 500)%nat.

(** The text area holds at most 500 code units and every call in flight was
    submittable. *)
Definition boundedInput (s : App.AppState) : Prop :=
  (List.length (App.text s) <= 500)%nat /\ Forall submittable (App.inFlight s).

(** While the generating flag is set the result and the error are empty and
    a call is in flight. *)
Definition requestingIsClean (s : App.AppState) : Prop :=
  isGenerating (App.status s) = true ->
  audioUrl (App.status s) = None /\ rawBuffer (App.status s) = None
  /\ error (App.status s) = None /\ App.inFlight s <> [].

(** The audio URL and the raw buffer are absent together, or the URL is
    that of the container of the raw buffer. *)
Definition audioCoherent (createObjectURL : list byte -> jsstring)
  (st : AudioGenerationState) : Prop :=
  (audioUrl st = None /\ rawBuffer st = None)
  \/ exists pcm,
       rawBuffer st = Some pcm
       /\ audioUrl st = Some (createObjectURL (createWavFile pcm)).

(** An error description, when present, is not the empty string. *)
Definition errorNonEmpty (st : AudioGenerationState) : Prop :=
  forall m, error st = Some m -> m <> [].

(** The events of one successful generation. *)
Definition oneGeneration : list App.Event :=
  [App.ChangeText (js "hi"); App.ClickGenerate;
   App.Settle 0 (alwaysAnswers (oneBlobResponse (js "audio/wav") (js "AAA=")))].

(** ** The string and field functions on concrete values *)

Example trim_both_ends : trim (js "  hi there ") = js "hi there".
Proof. reflexivity. Qed.

(** A no-break space and a line separator are stripped as well. *)
Example trim_unicode_space : trim [160; 104; 105; 8232]%N = js "hi".
Proof. reflexivity. Qed.

Example trim_blank : trim (js "   ") = [].
Proof. reflexivity. Qed.

Example includes_500 :
  includes (js "got status 500 from server") (js "500") = true
  /\ includes (js "got status 50 0") (js "500") = false.
Proof. split; reflexivity. Qed.

Example startsWith_audio :
  startsWith (js "audio/L16;codec=pcm;rate=24000") (js "audio/") = true
  /\ startsWith (js "video/mp4") (js "audio/") = false
  /\ startsWith (js "audio") (js "audio/") = false.
Proof. repeat split. Qed.

Example u32le_sample_rate : u32le 24000 = [xc0; x5d; x00; x00]%byte.
Proof. reflexivity. Qed.

(** ** Facts on bytes and fields *)

Lemma Z_of_byte_of_Z (z : Z) : Z_of_byte (byte_of_Z z) = z mod 256.
Proof.
  unfold Z_of_byte, byte_of_Z.
  assert (Hr : 0 <= z mod 256 < 256) by (apply Z.mod_pos_bound; lia).
  destruct (Byte.of_N (Z.to_N (z mod 256))) as [b|] eqn:E.
  - apply Byte.to_of_N in E. rewrite E. lia.
  - apply Byte.of_N_None_iff in E. lia.
Qed.

Lemma Z_of_byte_range (b : byte) : 0 <= Z_of_byte b < 256.
Proof.
  unfold Z_of_byte. pose proof (Byte.to_N_bounded b). lia.
Qed.

Lemma getUint32le_u32le (pre post : list byte) (v : Z) :
  getUint32le (pre ++ u32le v ++ post) (List.length pre) = v mod 4294967296.
Proof.
  unfold getUint32le, byteAt.
  rewrite !app_nth2_plus.
  replace (nth (List.length pre) (pre ++ u32le v ++ post) x00)
    with (nth 0 (u32le v ++ post) x00)
    by (rewrite <- (app_nth2_plus pre (u32le v ++ post) x00 0);
        f_equal; lia).
  cbn [u32le app nth]. rewrite !Z_of_byte_of_Z.
  set (m := v mod 4294967296).
  assert (Hm : 0 <= m < 4294967296) by (apply Z.mod_pos_bound; lia).
  clearbody m.
  pose proof (Z.div_mod m 256 ltac:(lia)) as E0.
  pose proof (Z.mod_pos_bound m 256 ltac:(lia)) as B0.
  replace (m / 65536) with (m / 256 / 256) by (rewrite Z.div_div by lia; reflexivity).
  replace (m / 16777216) with (m / 256 / 256 / 256)
    by (rewrite !Z.div_div by lia; reflexivity).
  set (q1 := m / 256) in *.
  pose proof (Z.div_mod q1 256 ltac:(lia)) as E1.
  pose proof (Z.mod_pos_bound q1 256 ltac:(lia)) as B1.
  set (q2 := q1 / 256) in *.
  pose proof (Z.div_mod q2 256 ltac:(lia)) as E2.
  pose proof (Z.mod_pos_bound q2 256 ltac:(lia)) as B2.
  set (q3 := q2 / 256) in *.
  assert (H3 : 0 <= q3 < 256) by lia.
  rewrite (Z.mod_small q3 256) by lia.
  lia.
Qed.

Lemma createWavFile_split (p : list byte) :
  createWavFile p =
  ascii_tag "RIFF" ++ u32le (36 + Z.of_nat (List.length p))
  ++ (ascii_tag "WAVE" ++ ascii_tag "fmt " ++ u32le 16 ++ u16le 1 ++ u16le 1
      ++ u32le 24000 ++ u32le (24000 * 2) ++ u16le 2 ++ u16le 16
      ++ ascii_tag "data" ++ u32le (Z.of_nat (List.length p)) ++ p).
Proof.
  unfold createWavFile, wavHeader. repeat rewrite <- app_assoc. reflexivity.
Qed.

Lemma createWavFile_split_data (p : list byte) :
  createWavFile p =
  (ascii_tag "RIFF" ++ u32le (36 + Z.of_nat (List.length p))
   ++ ascii_tag "WAVE" ++ ascii_tag "fmt " ++ u32le 16 ++ u16le 1 ++ u16le 1
   ++ u32le 24000 ++ u32le (24000 * 2) ++ u16le 2 ++ u16le 16
   ++ ascii_tag "data")
  ++ u32le (Z.of_nat (List.length p)) ++ p.
Proof.
  unfold createWavFile, wavHeader. repeat rewrite <- app_assoc. reflexivity.
Qed.

Lemma wavHeader_length (n : Z) : List.length (wavHeader n) = 44%nat.
Proof. reflexivity. Qed.

Lemma createWavFile_length (p : list byte) :
  List.length (createWavFile p) = (44 + List.length p)%nat.
Proof.
  unfold createWavFile. rewrite length_app, wavHeader_length. reflexivity.
Qed.

Lemma createWavFile_body (p : list byte) : skipn 44 (createWavFile p) = p.
Proof.
  unfold createWavFile.
  rewrite <- (wavHeader_length (Z.of_nat (List.length p))).
  rewrite skipn_app, skipn_all, Nat.sub_diag. reflexivity.
Qed.

Lemma createWavFile_riff_size (p : list byte) :
  getUint32le (createWavFile p) 4 =
  (36 + Z.of_nat (List.length p)) mod 4294967296.
Proof.
  rewrite createWavFile_split.
  change 4%nat with (List.length (ascii_tag "RIFF")).
  apply getUint32le_u32le.
Qed.

Lemma createWavFile_data_size (p : list byte) :
  getUint32le (createWavFile p) 40 = Z.of_nat (List.length p) mod 4294967296.
Proof.
  rewrite createWavFile_split_data.
  match goal with
  | |- getUint32le (?pre ++ _) _ = _ =>
      change 40%nat with (List.length pre)
  end.
  apply getUint32le_u32le.
Qed.

(** The container of the empty buffer: the 44 bytes of the canonical header
    of a mono, 16-bit, 24000 Hz file without samples. *)
Example createWavFile_empty :
  createWavFile [] =
  ["R"; "I"; "F"; "F"; x24; x00; x00; x00; "W"; "A"; "V"; "E";
   "f"; "m"; "t"; " "; x10; x00; x00; x00; x01; x00; x01; x00;
   xc0; x5d; x00; x00; x80; xbb; x00; x00; x02; x00; x10; x00;
   "d"; "a"; "t"; "a"; x00; x00; x00; x00]%byte.
Proof. vm_compute. reflexivity. Qed.

(** Four bytes read as a little-endian uint32 are below 2^32. *)
Lemma getUint32le_bound (buf : list byte) (off : nat) :
  0 <= getUint32le buf off < 4294967296.
Proof.
  unfold getUint32le, byteAt.
  pose proof (Z_of_byte_range (nth off buf x00)).
  pose proof (Z_of_byte_range (nth (off + 1) buf x00)).
  pose proof (Z_of_byte_range (nth (off + 2) buf x00)).
  pose proof (Z_of_byte_range (nth (off + 3) buf x00)).
  lia.
Qed.

(** C1, as the code has it.  For every byte sequence [p] with
    [36 + length p] below 2^32 (what a uint32 field can hold),
    [createWavFile p] is a sequence of [44 + length p] bytes in which bytes
    4-7 hold [36 + length p], bytes 40-43 hold [length p], and the final
    [length p] bytes are [p]. *)
Theorem createWavFile_container (p : list byte) :
  36 + Z.of_nat (List.length p) < 4294967296 ->
  List.length (createWavFile p) = (44 + List.length p)%nat
  /\ getUint32le (createWavFile p) 4 = 36 + Z.of_nat (List.length p)
  /\ getUint32le (createWavFile p) 40 = Z.of_nat (List.length p)
  /\ skipn (List.length (createWavFile p) - List.length p) (createWavFile p) = p.
Proof.
  intros Hfits.
  split; [ apply createWavFile_length | ].
  split; [ rewrite createWavFile_riff_size; apply Z.mod_small; lia | ].
  split; [ rewrite createWavFile_data_size; apply Z.mod_small; lia | ].
  rewrite createWavFile_length.
  replace (44 + List.length p - List.length p)%nat with 44%nat by lia.
  apply createWavFile_body.
Qed.

(** The container of a three-byte buffer. *)
Lemma createWavFile_container_witness :
  List.length (createWavFile [x01; x02; x03]%byte) = 47%nat
  /\ getUint32le (createWavFile [x01; x02; x03]%byte) 4 = 39
  /\ getUint32le (createWavFile [x01; x02; x03]%byte) 40 = 3
  /\ skipn 44 (createWavFile [x01; x02; x03]%byte) = [x01; x02; x03]%byte.
Proof.
  apply (createWavFile_container [x01; x02; x03]%byte).
  vm_compute. reflexivity.
Defined.

(** C1 as stated fails on a buffer of 2^32 - 36 bytes: the claim asks bytes
    4-7 to read 2^32, and four bytes, whatever is written to them, read
    less. *)
Lemma createWavFile_riff_size_overflow :
  (forall buf off, getUint32le buf off < 4294967296)
  /\ 36 + Z.of_nat (List.length (repeat x00 (Z.to_nat 4294967260)))
     = 4294967296
  /\ getUint32le (createWavFile (repeat x00 (Z.to_nat 4294967260))) 4
     < 36 + Z.of_nat (List.length (repeat x00 (Z.to_nat 4294967260))).
Proof.
  assert (L : Z.of_nat (List.length (repeat x00 (Z.to_nat 4294967260)))
              = 4294967260).
  { rewrite repeat_length. apply Z2Nat.id. lia. }
  split; [ intros buf off; apply getUint32le_bound | ].
  split; [ rewrite L; reflexivity | ].
  rewrite L. apply getUint32le_bound.
Qed.

(** ** Facts on [generateSpeech] *)

Lemma resolveTargetText_run ai text language sent :
  resolveTargetText ai text language sent =
  (sent ++ translationCalls text language,
   Fulfilled (targetTextOf ai text language)).
Proof.
  unfold targetTextOf, settled, resolveTargetText, translationCalls.
  destruct language; cbn.
  - rewrite app_nil_r. reflexivity.
  - unfold tryCatch, bind, generateContent, ret. cbn.
    destruct (ai _) as [response | e]; cbn; [ | reflexivity ].
    destruct (GenAI.text response) as [t | ]; cbn; [ | reflexivity ].
    destruct (truthy (trim t)); reflexivity.
Qed.

(** The callback of [find] throws nothing but the [TypeError] of a missing
    MIME type. *)
Lemma findPart_isAudioPart_rejected (parts : list GenAI.Part) (e : JsError) :
  findPart isAudioPart parts = Rejected e ->
  e = typeErrorReading (js "startsWith").
Proof.
  induction parts as [ | p parts IH]; cbn [findPart]; [ discriminate | ].
  unfold isAudioPart at 1.
  destruct (GenAI.inlineData p) as [blob | ]; [ | exact IH ].
  destruct (GenAI.mimeType blob) as [mime | ].
  - destruct (startsWith mime (js "audio/")); [ discriminate | exact IH ].
  - intros [= <-]. reflexivity.
Qed.

(** An error thrown between lines 322 and 334 passes the [catch] as it is:
    it has no status and no 500 in its message. *)
Lemma readAudio_passes_catch (response : GenAI.GenerateContentResponse)
  (e : JsError) :
  readAudio response = Rejected e ->
  statusIs500 e || messageIncludes500 e = false.
Proof.
  unfold readAudio, contentParts.
  destruct (firstCandidate response) as [candidate | ];
    [ | intros [= <-]; vm_compute; reflexivity ].
  destruct (GenAI.content candidate) as [content | ];
    [ | intros [= <-]; vm_compute; reflexivity ].
  destruct (GenAI.parts content) as [parts | ];
    [ | intros [= <-]; vm_compute; reflexivity ].
  destruct (findPart isAudioPart parts) as [[p | ] | e'] eqn:Hfind.
  - destruct (GenAI.inlineData p) as [blob | ];
      [ | intros [= <-]; vm_compute; reflexivity ].
    destruct (GenAI.data blob) as [payload | ];
      [ | intros [= <-]; vm_compute; reflexivity ].
    destruct (truthy payload); [ discriminate | ].
    intros [= <-]. vm_compute. reflexivity.
  - intros [= <-]. vm_compute. reflexivity.
  - intros [= <-]. rewrite (findPart_isAudioPart_rejected _ _ Hfind).
    vm_compute. reflexivity.
Qed.

(** Step 2 in one equation: the call it sends and what it settles to. *)
Lemma synthesize_eval ai targetText voiceName sent :
  synthesize ai targetText voiceName sent =
  (sent ++ [GenAI.SpeechPrompt ttsModel targetText voiceName],
   match ai (GenAI.SpeechPrompt ttsModel targetText voiceName) with
   | Fulfilled response => readAudio response
   | Rejected e =>
       if statusIs500 e || messageIncludes500 e
       then Rejected (newError hiccupMessage)
       else Rejected e
   end).
Proof.
  unfold synthesize, tryCatch, bind, generateContent, evaluate, throw, ret.
  cbv beta.
  destruct (ai (GenAI.SpeechPrompt ttsModel targetText voiceName))
    as [response | e]; cbv beta iota.
  - pose proof (readAudio_passes_catch response) as Hpass.
    unfold readAudio in *.
    destruct (firstCandidate response) as [candidate | ];
      [ | rewrite (Hpass _ eq_refl); reflexivity ].
    destruct (contentParts candidate) as [parts | e];
      [ | rewrite (Hpass _ eq_refl); reflexivity ].
    destruct (findPart isAudioPart parts) as [[p | ] | e];
      [ | rewrite (Hpass _ eq_refl); reflexivity
        | rewrite (Hpass _ eq_refl); reflexivity ].
    destruct (GenAI.inlineData p) as [blob | ];
      [ | rewrite (Hpass _ eq_refl); reflexivity ].
    destruct (GenAI.data blob) as [payload | ];
      [ | rewrite (Hpass _ eq_refl); reflexivity ].
    destruct (truthy payload);
      [ reflexivity | rewrite (Hpass _ eq_refl); reflexivity ].
  - destruct (statusIs500 e || messageIncludes500 e); reflexivity.
Qed.

Lemma synthesize_run ai targetText voiceName sent :
  synthesize ai targetText voiceName sent =
  (sent ++ [GenAI.SpeechPrompt ttsModel targetText voiceName],
   settled (synthesize ai targetText voiceName)).
Proof.
  unfold settled. rewrite !synthesize_eval. reflexivity.
Qed.

Lemma generateSpeech_calls ai text voiceName language :
  calls (generateSpeech ai text voiceName language) =
  translationCalls text language
  ++ [GenAI.SpeechPrompt ttsModel (targetTextOf ai text language) voiceName].
Proof.
  unfold calls, generateSpeech, bind.
  rewrite resolveTargetText_run, synthesize_run. reflexivity.
Qed.

Lemma generateSpeech_settled ai text voiceName language :
  settled (generateSpeech ai text voiceName language) =
  settled (synthesize ai (targetTextOf ai text language) voiceName).
Proof.
  unfold settled at 1. unfold generateSpeech, bind.
  rewrite resolveTargetText_run, synthesize_run. reflexivity.
Qed.

(** What Step 2 settles to, read off the outcome of the synthesis call. *)
Lemma synthesize_fulfilled ai targetText voiceName response :
  ai (GenAI.SpeechPrompt ttsModel targetText voiceName) = Fulfilled response ->
  settled (synthesize ai targetText voiceName) = readAudio response.
Proof.
  intros Hai. unfold settled. rewrite synthesize_eval, Hai. reflexivity.
Qed.

Lemma synthesize_rejected ai targetText voiceName e :
  ai (GenAI.SpeechPrompt ttsModel targetText voiceName) = Rejected e ->
  settled (synthesize ai targetText voiceName) =
  if statusIs500 e || messageIncludes500 e
  then Rejected (newError hiccupMessage)
  else Rejected e.
Proof.
  intros Hai. unfold settled. rewrite synthesize_eval, Hai. reflexivity.
Qed.

Lemma targetTextOf_en ai text : targetTextOf ai text en = text.
Proof. reflexivity. Qed.

Lemma targetTextOf_ml ai text :
  targetTextOf ai text ml =
  match ai (GenAI.TextPrompt translationModel (translationPrompt text)) with
  | Fulfilled response =>
      match GenAI.text response with
      | Some t => if truthy (trim t) then trim t else text
      | None => text
      end
  | Rejected _ => readInMalayalam ++ text
  end.
Proof.
  unfold targetTextOf, settled, resolveTargetText, tryCatch, bind,
    generateContent, ret.
  cbv beta.
  destruct (ai _) as [response | e]; cbv beta iota; [ | reflexivity ].
  destruct (GenAI.text response) as [t | ]; cbn [option_map]; [ | reflexivity ].
  destruct (truthy (trim t)); reflexivity.
Qed.

Lemma truthy_nonempty (s : jsstring) : truthy s = true <-> s <> [].
Proof. destruct s; cbn; split; congruence. Qed.

Lemma truthy_empty (s : jsstring) : truthy s = false <-> s = [].
Proof. destruct s; cbn; split; congruence. Qed.

Lemma startsWith_app (p s : jsstring) : startsWith (p ++ s) p = true.
Proof.
  induction p as [ | c p IH]; cbn; [ destruct s; reflexivity | ].
  unfold unit_eqb. rewrite N.eqb_refl. exact IH.
Qed.

(** C2.  For the language ['en'], whatever the text, [generateSpeech] sends
    exactly one call, the synthesis call with the input text unchanged, and
    no translation call; and for the text Hello and the voice Zephyr, when
    that call is answered by one candidate with one part whose inline data
    has a MIME type starting with audio/ and the payload AAA=, the result is
    AAA=. *)
Theorem generateSpeech_en_single_call ai text voiceName :
  calls (generateSpeech ai text voiceName en)
  = [GenAI.SpeechPrompt ttsModel text voiceName]
  /\ (forall mime,
        startsWith mime (js "audio/") = true ->
        ai (GenAI.SpeechPrompt ttsModel (js "Hello") Zephyr)
        = Fulfilled (oneBlobResponse mime (js "AAA=")) ->
        calls (generateSpeech ai (js "Hello") Zephyr en)
        = [GenAI.SpeechPrompt ttsModel (js "Hello") Zephyr]
        /\ settled (generateSpeech ai (js "Hello") Zephyr en)
           = Fulfilled (js "AAA=")).
Proof.
  split.
  - rewrite generateSpeech_calls. reflexivity.
  - intros mime Hmime Hai. split.
    + rewrite generateSpeech_calls. reflexivity.
    + rewrite generateSpeech_settled, targetTextOf_en.
      rewrite (synthesize_fulfilled _ _ _ _ Hai).
      unfold readAudio, firstCandidate, oneBlobResponse, contentParts.
      cbn [GenAI.candidates GenAI.content GenAI.parts findPart].
      unfold isAudioPart. cbn [GenAI.inlineData GenAI.mimeType].
      rewrite Hmime. reflexivity.
Qed.

(** The scenario of C2 with the MIME type of the service's PCM audio. *)
Lemma generateSpeech_en_single_call_witness :
  calls (generateSpeech
           (alwaysAnswers (oneBlobResponse (js "audio/L16;codec=pcm;rate=24000")
                             (js "AAA=")))
           (js "Hello") Zephyr en)
  = [GenAI.SpeechPrompt ttsModel (js "Hello") Zephyr]
  /\ settled (generateSpeech
                (alwaysAnswers (oneBlobResponse
                                  (js "audio/L16;codec=pcm;rate=24000")
                                  (js "AAA=")))
                (js "Hello") Zephyr en)
     = Fulfilled (js "AAA=").
Proof.
  apply (proj2 (generateSpeech_en_single_call
                  (alwaysAnswers
                     (oneBlobResponse (js "audio/L16;codec=pcm;rate=24000")
                        (js "AAA=")))
                  (js "Hello") Zephyr)
           (js "audio/L16;codec=pcm;rate=24000"));
    reflexivity.
Defined.

(** C3, as the code has it.  For the language ['ml']: when the translation
    call returns a text that is not empty after trimming, the synthesis call
    is sent with that text trimmed; when the translation call throws, the
    synthesis call is still sent, with the original text after the
    instruction to read it in Malayalam.  In both cases [generateSpeech]
    settles as the synthesis step does. *)
Theorem generateSpeech_ml_translation ai text voiceName :
  (forall response translated,
     ai (GenAI.TextPrompt translationModel (translationPrompt text))
     = Fulfilled response ->
     GenAI.text response = Some translated ->
     trim translated <> [] ->
     calls (generateSpeech ai text voiceName ml)
     = [GenAI.TextPrompt translationModel (translationPrompt text);
        GenAI.SpeechPrompt ttsModel (trim translated) voiceName]
     /\ settled (generateSpeech ai text voiceName ml)
        = settled (synthesize ai (trim translated) voiceName))
  /\ (forall e,
        ai (GenAI.TextPrompt translationModel (translationPrompt text))
        = Rejected e ->
        calls (generateSpeech ai text voiceName ml)
        = [GenAI.TextPrompt translationModel (translationPrompt text);
           GenAI.SpeechPrompt ttsModel (readInMalayalam ++ text) voiceName]
        /\ settled (generateSpeech ai text voiceName ml)
           = settled (synthesize ai (readInMalayalam ++ text) voiceName)).
Proof.
  split.
  - intros response translated Hai Htext Hne.
    assert (Ht : targetTextOf ai text ml = trim translated).
    { rewrite targetTextOf_ml, Hai, Htext.
      apply truthy_nonempty in Hne. rewrite Hne. reflexivity. }
    rewrite generateSpeech_calls, generateSpeech_settled, Ht.
    split; reflexivity.
  - intros e Hai.
    assert (Ht : targetTextOf ai text ml = readInMalayalam ++ text).
    { rewrite targetTextOf_ml, Hai. reflexivity. }
    rewrite generateSpeech_calls, generateSpeech_settled, Ht.
    split; reflexivity.
Qed.

(** The two scenarios of C3: the translation [namaskaram] is what is
    synthesized, and a failed translation still ends in audio. *)
Lemma generateSpeech_ml_translation_witness :
  calls (generateSpeech
           (translates namaskaram (oneBlobResponse (js "audio/wav") (js "AAA=")))
           (js "Hello") Zephyr ml)
  = [GenAI.TextPrompt translationModel (translationPrompt (js "Hello"));
     GenAI.SpeechPrompt ttsModel namaskaram Zephyr]
  /\ settled (generateSpeech
                (translationFails (newError (js "Failed to fetch"))
                   (oneBlobResponse (js "audio/wav") (js "AAA=")))
                (js "Hello") Zephyr ml)
     = Fulfilled (js "AAA=").
Proof.
  split.
  - apply (proj1 (generateSpeech_ml_translation
                    (translates namaskaram
                       (oneBlobResponse (js "audio/wav") (js "AAA=")))
                    (js "Hello") Zephyr)
             {| GenAI.text := Some namaskaram; GenAI.candidates := None |}
             namaskaram);
      [ reflexivity | reflexivity | vm_compute; discriminate ].
  - rewrite (proj2 (proj2 (generateSpeech_ml_translation
                             (translationFails (newError (js "Failed to fetch"))
                                (oneBlobResponse (js "audio/wav") (js "AAA=")))
                             (js "Hello") Zephyr)
                      (newError (js "Failed to fetch")) eq_refl)).
    vm_compute. reflexivity.
Defined.

(** C3 as stated fails on a translation that is not empty but blank: the
    service returns one space, and the synthesis call carries the original
    text, not the text the translation call returned. *)
Lemma generateSpeech_ml_blank_not_spoken :
  js " " <> []
  /\ calls (generateSpeech
              (translates (js " ") (oneBlobResponse (js "audio/wav") (js "AAA=")))
              (js "Hello") Zephyr ml)
     = [GenAI.TextPrompt translationModel (translationPrompt (js "Hello"));
        GenAI.SpeechPrompt ttsModel (js "Hello") Zephyr]
  /\ js "Hello" <> js " ".
Proof.
  split; [ vm_compute; discriminate | ].
  split; [ vm_compute; reflexivity | vm_compute; discriminate ].
Qed.

Lemma prefixed_differs (text : jsstring) : readInMalayalam ++ text <> text.
Proof.
  intros H. apply (f_equal (@List.length N)) in H.
  rewrite length_app in H.
  assert (0 < List.length readInMalayalam)%nat by (vm_compute; lia).
  lia.
Qed.

(** C10.  For the language ['ml'], when the translation call succeeds but
    its text is absent or trims to the empty string, the synthesis call is
    sent with the original text unchanged; the text with the instruction
    prefix is not sent. *)
Theorem generateSpeech_ml_blank_translation ai text voiceName response :
  ai (GenAI.TextPrompt translationModel (translationPrompt text))
  = Fulfilled response ->
  (GenAI.text response = None
   \/ exists t, GenAI.text response = Some t /\ trim t = []) ->
  calls (generateSpeech ai text voiceName ml)
  = [GenAI.TextPrompt translationModel (translationPrompt text);
     GenAI.SpeechPrompt ttsModel text voiceName]
  /\ settled (generateSpeech ai text voiceName ml)
     = settled (synthesize ai text voiceName)
  /\ ~ In (GenAI.SpeechPrompt ttsModel (readInMalayalam ++ text) voiceName)
          (calls (generateSpeech ai text voiceName ml)).
Proof.
  intros Hai Hblank.
  assert (Ht : targetTextOf ai text ml = text).
  { rewrite targetTextOf_ml, Hai.
    destruct Hblank as [Hnone | (t & Hsome & Hempty)].
    - rewrite Hnone. reflexivity.
    - rewrite Hsome, Hempty. reflexivity. }
  rewrite generateSpeech_calls, generateSpeech_settled, Ht.
  split; [ reflexivity | ]. split; [ reflexivity | ].
  cbn [translationCalls app In]. intros [H | [H | []]].
  - discriminate H.
  - apply (prefixed_differs text). congruence.
Qed.

(** A translation of two spaces and a tab leaves the input as it is. *)
Lemma generateSpeech_ml_blank_translation_witness :
  calls (generateSpeech
           (translates [32; 32; 9]%N (oneBlobResponse (js "audio/wav") (js "AAA=")))
           (js "Hello") Zephyr ml)
  = [GenAI.TextPrompt translationModel (translationPrompt (js "Hello"));
     GenAI.SpeechPrompt ttsModel (js "Hello") Zephyr].
Proof.
  apply (generateSpeech_ml_blank_translation
           (translates [32; 32; 9]%N (oneBlobResponse (js "audio/wav") (js "AAA=")))
           (js "Hello") Zephyr
           {| GenAI.text := Some [32; 32; 9]%N; GenAI.candidates := None |}
           eq_refl).
  right. exists [32; 32; 9]%N. split; reflexivity.
Defined.

(** ** The candidate, the audio part and the errors of Step 2 *)

Lemma findPart_first (f : GenAI.Part -> Outcome bool)
  (before : list GenAI.Part) (x : GenAI.Part) (after : list GenAI.Part) :
  (forall y, In y before -> f y = Fulfilled false) -> f x = Fulfilled true ->
  findPart f (before ++ x :: after) = Fulfilled (Some x).
Proof.
  induction before as [ | b before IH]; cbn [app findPart]; intros Hbefore Hx.
  - rewrite Hx. reflexivity.
  - rewrite (Hbefore b (or_introl eq_refl)).
    apply IH; [ | exact Hx ]. intros y Hy. apply Hbefore. right. exact Hy.
Qed.

Lemma findPart_split (f : GenAI.Part -> Outcome bool) (l : list GenAI.Part)
  (x : GenAI.Part) :
  findPart f l = Fulfilled (Some x) ->
  exists before after,
    l = before ++ x :: after
    /\ (forall y, In y before -> f y = Fulfilled false)
    /\ f x = Fulfilled true.
Proof.
  induction l as [ | a l IH]; cbn [findPart]; [ discriminate | ].
  destruct (f a) as [[ | ] | e] eqn:Ha.
  - intros [= ->]. exists [], l. cbn. split; [ reflexivity | ].
    split; [ intros y [] | exact Ha ].
  - intros Hfind. destruct (IH Hfind) as (before & after & -> & Hbefore & Hx).
    exists (a :: before), after. split; [ reflexivity | ].
    split; [ | exact Hx ].
    intros y [<- | Hy]; [ exact Ha | apply Hbefore; exact Hy ].
  - discriminate.
Qed.

Lemma findPart_none (f : GenAI.Part -> Outcome bool) (l : list GenAI.Part) :
  findPart f l = Fulfilled None <-> (forall y, In y l -> f y = Fulfilled false).
Proof.
  induction l as [ | a l IH]; cbn [findPart].
  - split; [ intros _ y [] | reflexivity ].
  - split.
    + destruct (f a) as [[ | ] | e] eqn:Ha; try discriminate.
      intros Hfind y [<- | Hy]; [ exact Ha | ].
      apply (proj1 IH Hfind). exact Hy.
    + intros Hall. rewrite (Hall a (or_introl eq_refl)). apply IH.
      intros y Hy. apply Hall. right. exact Hy.
Qed.

Lemma isAudioPart_true (p : GenAI.Part) :
  isAudioPart p = Fulfilled true <-> audioMime p.
Proof.
  unfold isAudioPart, audioMime. split.
  - destruct (GenAI.inlineData p) as [blob | ]; [ | discriminate ].
    destruct (GenAI.mimeType blob) as [mime | ] eqn:Hmime; [ | discriminate ].
    intros [= H]. exists blob, mime. repeat split; assumption.
  - intros (blob & mime & -> & -> & ->). reflexivity.
Qed.

Lemma isAudioPart_false (p : GenAI.Part) :
  (forall blob, GenAI.inlineData p = Some blob -> GenAI.mimeType blob <> None) ->
  isAudioPart p = Fulfilled false <-> ~ audioMime p.
Proof.
  intros Htyped. rewrite <- isAudioPart_true. unfold isAudioPart.
  destruct (GenAI.inlineData p) as [blob | ];
    [ | split; [ discriminate | reflexivity ] ].
  destruct (GenAI.mimeType blob) as [mime | ] eqn:Hmime.
  - destruct (startsWith mime (js "audio/")).
    + split; [ discriminate | intros H; destruct (H eq_refl) ].
    + split; [ discriminate | reflexivity ].
  - destruct (Htyped blob eq_refl Hmime).
Qed.

(** On a first candidate without content the property access throws, and
    the [TypeError] is what [generateSpeech] rejects with. *)
Lemma generateSpeech_contentless_candidate ai text voiceName language response
  candidate :
  ai (GenAI.SpeechPrompt ttsModel (targetTextOf ai text language) voiceName)
  = Fulfilled response ->
  firstCandidate response = Some candidate ->
  GenAI.content candidate = None ->
  settled (generateSpeech ai text voiceName language)
  = Rejected (typeErrorReading (js "parts")).
Proof.
  intros Hai Hcand Hcontent.
  rewrite generateSpeech_settled, (synthesize_fulfilled _ _ _ _ Hai).
  unfold readAudio, contentParts. rewrite Hcand, Hcontent. reflexivity.
Qed.

(** C4.  When the synthesis call is answered by a response whose candidate
    list is absent or empty, [generateSpeech] rejects, and the message of
    the error contains both blocked and no results. *)
Theorem generateSpeech_no_candidate ai text voiceName language response :
  ai (GenAI.SpeechPrompt ttsModel (targetTextOf ai text language) voiceName)
  = Fulfilled response ->
  (GenAI.candidates response = None \/ GenAI.candidates response = Some []) ->
  settled (generateSpeech ai text voiceName language)
  = Rejected (newError blockedMessage)
  /\ message (newError blockedMessage) = Some blockedMessage
  /\ includes blockedMessage (js "blocked") = true
  /\ includes blockedMessage (js "no results") = true.
Proof.
  intros Hai Hnone.
  rewrite generateSpeech_settled, (synthesize_fulfilled _ _ _ _ Hai).
  unfold readAudio, firstCandidate.
  destruct Hnone as [-> | ->];
    (split; [ reflexivity | ]; split; [ reflexivity | ];
     split; vm_compute; reflexivity).
Qed.

(** An empty candidate list, in English and in Malayalam. *)
Lemma generateSpeech_no_candidate_witness :
  settled (generateSpeech
             (alwaysAnswers {| GenAI.text := None; GenAI.candidates := Some [] |})
             (js "Hello") Zephyr en)
  = Rejected (newError blockedMessage)
  /\ settled (generateSpeech
                (alwaysAnswers {| GenAI.text := None; GenAI.candidates := None |})
                (js "Hello") Kore ml)
     = Rejected (newError blockedMessage).
Proof.
  split.
  - apply (generateSpeech_no_candidate
             (alwaysAnswers {| GenAI.text := None; GenAI.candidates := Some [] |})
             (js "Hello") Zephyr en
             {| GenAI.text := None; GenAI.candidates := Some [] |} eq_refl).
    right. reflexivity.
  - apply (generateSpeech_no_candidate
             (alwaysAnswers {| GenAI.text := None; GenAI.candidates := None |})
             (js "Hello") Kore ml
             {| GenAI.text := None; GenAI.candidates := None |} eq_refl).
    left. reflexivity.
Defined.

(** C5, as the code has it.  When the synthesis call is answered by a
    response whose first candidate has content with parts, every inline data
    of which has a MIME type: if the first part, in order, whose inline data
    has a MIME type starting with audio/ has a payload that is not empty,
    [generateSpeech] returns that payload; and it rejects with the error of
    the could-not-process message exactly when no part is such a part or
    the first such part has a payload that is absent or empty. *)
Theorem generateSpeech_first_audio_part ai text voiceName language response
  candidate content parts :
  ai (GenAI.SpeechPrompt ttsModel (targetTextOf ai text language) voiceName)
  = Fulfilled response ->
  firstCandidate response = Some candidate ->
  GenAI.content candidate = Some content ->
  GenAI.parts content = Some parts ->
  mimeTyped parts ->
  (forall before p after blob payload,
     parts = before ++ p :: after ->
     (forall q, In q before -> ~ audioMime q) ->
     audioMime p ->
     GenAI.inlineData p = Some blob ->
     GenAI.data blob = Some payload ->
     payload <> [] ->
     settled (generateSpeech ai text voiceName language) = Fulfilled payload)
  /\ (settled (generateSpeech ai text voiceName language)
      = Rejected (newError couldNotProcessMessage)
      <->
      ((forall q, In q parts -> ~ audioMime q)
       \/ exists before p after blob,
            parts = before ++ p :: after
            /\ (forall q, In q before -> ~ audioMime q)
            /\ audioMime p
            /\ GenAI.inlineData p = Some blob
            /\ (GenAI.data blob = None \/ GenAI.data blob = Some [])))
  /\ message (newError couldNotProcessMessage) = Some couldNotProcessMessage
  /\ includes couldNotProcessMessage (js "could not process") = true.
Proof.
  intros Hai Hcand Hcontent Hparts Htyped.
  assert (Hfalse : forall q, In q parts ->
                     (isAudioPart q = Fulfilled false <-> ~ audioMime q)).
  { intros q Hq. apply isAudioPart_false. intros blob. apply (Htyped q blob Hq). }
  assert (Hsettled : settled (generateSpeech ai text voiceName language)
                     = match findPart isAudioPart parts with
                       | Rejected e => Rejected e
                       | Fulfilled (Some p) =>
                           match GenAI.inlineData p with
                           | Some blob =>
                               match GenAI.data blob with
                               | Some payload =>
                                   if truthy payload then Fulfilled payload
                                   else Rejected (newError couldNotProcessMessage)
                               | None => Rejected (newError couldNotProcessMessage)
                               end
                           | None => Rejected (newError couldNotProcessMessage)
                           end
                       | Fulfilled None =>
                           Rejected (newError couldNotProcessMessage)
                       end).
  { rewrite generateSpeech_settled, (synthesize_fulfilled _ _ _ _ Hai).
    unfold readAudio, contentParts. rewrite Hcand, Hcontent, Hparts.
    reflexivity. }
  assert (Hfirst : forall before p after,
            parts = before ++ p :: after ->
            (forall q, In q before -> ~ audioMime q) -> audioMime p ->
            findPart isAudioPart parts = Fulfilled (Some p)).
  { intros before p after Hsplit Hbefore Hp. rewrite Hsplit.
    apply findPart_first.
    - intros q Hq. apply Hfalse; [ | apply Hbefore; exact Hq ].
      rewrite Hsplit. apply in_or_app. left. exact Hq.
    - apply isAudioPart_true. exact Hp. }
  rewrite Hsettled.
  split; [ | split; [ | split; vm_compute; reflexivity ] ].
  - intros before p after blob payload Hsplit Hbefore Hp Hblob Hdata Hne.
    rewrite (Hfirst before p after Hsplit Hbefore Hp), Hblob, Hdata.
    apply truthy_nonempty in Hne. rewrite Hne. reflexivity.
  - split.
    + destruct (findPart isAudioPart parts) as [[p | ] | e] eqn:Hfind.
      * destruct (findPart_split _ _ _ Hfind)
          as (before & after & Hsplit & Hbefore & Hp).
        apply isAudioPart_true in Hp.
        pose proof Hp as (blob & mime & Hblob & _ & _).
        rewrite Hblob. intros Hrej. right. exists before, p, after, blob.
        split; [ exact Hsplit | ]. split.
        { intros q Hq. apply Hfalse; [ | apply Hbefore; exact Hq ].
          rewrite Hsplit. apply in_or_app. left. exact Hq. }
        split; [ exact Hp | ]. split; [ exact Hblob | ].
        destruct (GenAI.data blob) as [payload | ]; [ | left; reflexivity ].
        destruct (truthy payload) eqn:Htr; [ discriminate Hrej | ].
        right. apply truthy_empty in Htr. rewrite Htr. reflexivity.
      * intros _. left. intros q Hq. apply Hfalse; [ exact Hq | ].
        apply (proj1 (findPart_none isAudioPart parts) Hfind). exact Hq.
      * rewrite (findPart_isAudioPart_rejected _ _ Hfind).
        intros Hrej. vm_compute in Hrej. discriminate Hrej.
    + intros [Hnone | (before & p & after & blob & Hsplit & Hbefore & Hp
                        & Hblob & Hdata)].
      * assert (Hfind : findPart isAudioPart parts = Fulfilled None).
        { apply findPart_none. intros q Hq. apply Hfalse; [ exact Hq | ].
          apply Hnone. exact Hq. }
        rewrite Hfind. reflexivity.
      * rewrite (Hfirst before p after Hsplit Hbefore Hp), Hblob.
        destruct Hdata as [-> | ->]; reflexivity.
Qed.

(** The payload of the first of two audio parts, after a text part. *)
Lemma generateSpeech_first_audio_part_witness :
  settled (generateSpeech (alwaysAnswers textThenTwoAudio) (js "Hello") Zephyr en)
  = Fulfilled (js "AAA=").
Proof.
  refine (proj1 (generateSpeech_first_audio_part
                   (alwaysAnswers textThenTwoAudio) (js "Hello") Zephyr en
                   textThenTwoAudio _ _ _ eq_refl eq_refl eq_refl eq_refl _)
            [ {| GenAI.partText := Some (js "ok"); GenAI.inlineData := None |} ]
            {| GenAI.partText := None;
               GenAI.inlineData :=
                 Some {| GenAI.mimeType := Some (js "audio/wav");
                         GenAI.data := Some (js "AAA=") |} |}
            [ {| GenAI.partText := None;
                 GenAI.inlineData :=
                   Some {| GenAI.mimeType := Some (js "audio/wav");
                           GenAI.data := Some (js "BBB=") |} |} ]
            {| GenAI.mimeType := Some (js "audio/wav");
               GenAI.data := Some (js "AAA=") |}
            (js "AAA=") eq_refl _ _ eq_refl eq_refl _).
  - intros q blob [<- | [<- | [<- | []]]]; intros [= <-]; discriminate.
  - intros q [<- | []] (blob & mime & Hblob & _). discriminate Hblob.
  - exists {| GenAI.mimeType := Some (js "audio/wav");
              GenAI.data := Some (js "AAA=") |}, (js "audio/wav").
    repeat split.
  - vm_compute. discriminate.
Defined.

(** C5 as stated fails on an audio part with an empty payload: the part
    exists, its MIME type starts with audio/, and [generateSpeech] rejects
    with the could-not-process error all the same. *)
Lemma generateSpeech_empty_payload_rejected :
  isAudioPart {| GenAI.partText := None;
                 GenAI.inlineData :=
                   Some {| GenAI.mimeType := Some (js "audio/wav");
                           GenAI.data := Some [] |} |} = Fulfilled true
  /\ settled (generateSpeech
                (alwaysAnswers (oneBlobResponse (js "audio/wav") []))
                (js "Hello") Zephyr en)
     = Rejected (newError couldNotProcessMessage).
Proof. split; vm_compute; reflexivity. Qed.

(** C6, as the code has it.  When the synthesis call fails with an error
    whose status is 500, [generateSpeech] rejects with a new error that has
    no status and carries the fixed retry message, which asks to tap again;
    that error is not the transport error, and its message differs from the
    transport error's message unless the latter is that same text. *)
Theorem generateSpeech_status_500 ai text voiceName language e :
  ai (GenAI.SpeechPrompt ttsModel (targetTextOf ai text language) voiceName)
  = Rejected e ->
  status e = Some 500 ->
  settled (generateSpeech ai text voiceName language)
  = Rejected (newError hiccupMessage)
  /\ message (newError hiccupMessage) = Some hiccupMessage
  /\ status (newError hiccupMessage) = None
  /\ includes hiccupMessage (js "Please tap 'Translate & Speak' again") = true
  /\ newError hiccupMessage <> e
  /\ (message e <> Some hiccupMessage ->
      message (newError hiccupMessage) <> message e).
Proof.
  intros Hai Hstatus.
  rewrite generateSpeech_settled, (synthesize_rejected _ _ _ _ Hai).
  unfold statusIs500. rewrite Hstatus. cbn [Z.eqb Pos.eqb orb].
  split; [ reflexivity | ].
  split; [ reflexivity | ].
  split; [ reflexivity | ].
  split; [ vm_compute; reflexivity | ].
  split.
  - intros Heq. rewrite <- Heq in Hstatus. discriminate Hstatus.
  - intros Hdiff Heq. apply Hdiff. rewrite <- Heq. reflexivity.
Qed.

(** An internal error of the service, as its client reports it. *)
Lemma generateSpeech_status_500_witness :
  settled (generateSpeech
             (alwaysFails {| status := Some 500;
                             message := Some (js "Internal error encountered.") |})
             (js "Hello") Zephyr en)
  = Rejected (newError hiccupMessage)
  /\ message (newError hiccupMessage)
     <> Some (js "Internal error encountered.").
Proof.
  destruct (generateSpeech_status_500
              (alwaysFails {| status := Some 500;
                              message := Some (js "Internal error encountered.") |})
              (js "Hello") Zephyr en
              {| status := Some 500;
                 message := Some (js "Internal error encountered.") |}
              eq_refl eq_refl)
    as (Hrej & _ & _ & _ & _ & Hdiff).
  split; [ exact Hrej | ].
  apply Hdiff. vm_compute. discriminate.
Defined.

(** C6 as stated fails on a transport error of status 500 whose message is
    the retry text itself: the rejection carries the same message. *)
Lemma generateSpeech_status_500_same_message :
  status {| status := Some 500; message := Some hiccupMessage |} = Some 500
  /\ settled (generateSpeech
                (alwaysFails {| status := Some 500;
                                message := Some hiccupMessage |})
                (js "Hello") Zephyr en)
     = Rejected (newError hiccupMessage)
  /\ message (newError hiccupMessage)
     = message {| status := Some 500; message := Some hiccupMessage |}.
Proof.
  split; [ reflexivity | ].
  split; [ vm_compute; reflexivity | reflexivity ].
Qed.

(** C7, as the code has it.  When the synthesis call fails with an error
    whose status is not 500 and whose message does not contain 500,
    [generateSpeech] rejects with that error unchanged; and in the [catch]
    of [handleGenerate] an error without a message, or with an empty one, is
    shown as the connection-lost text, any other with its own message. *)
Theorem generateSpeech_other_errors_propagate ai text voiceName language e :
  ai (GenAI.SpeechPrompt ttsModel (targetTextOf ai text language) voiceName)
  = Rejected e ->
  status e <> Some 500 ->
  messageIncludes500 e = false ->
  settled (generateSpeech ai text voiceName language) = Rejected e
  /\ (forall decodeBase64 createObjectURL (err : JsError) prev,
        (message err = None \/ message err = Some []) ->
        error (App.resume decodeBase64 createObjectURL (Rejected err) prev)
        = Some App.connectionLost)
  /\ (forall decodeBase64 createObjectURL (err : JsError) prev m,
        message err = Some m -> m <> [] ->
        error (App.resume decodeBase64 createObjectURL (Rejected err) prev)
        = Some m).
Proof.
  intros Hai Hstatus Hmsg.
  split; [ | split ].
  - rewrite generateSpeech_settled, (synthesize_rejected _ _ _ _ Hai), Hmsg.
    unfold statusIs500. destruct (status e) as [n | ]; [ | reflexivity ].
    destruct (Z.eqb_spec n 500) as [-> | _]; [ | reflexivity ].
    exfalso. apply Hstatus. reflexivity.
  - intros decodeBase64 createObjectURL err prev [Hnone | Hempty];
      cbn [App.resume App.failed error]; unfold App.errorText.
    + rewrite Hnone. reflexivity.
    + rewrite Hempty. reflexivity.
  - intros decodeBase64 createObjectURL err prev m Hm Hne.
    cbn [App.resume App.failed error]. unfold App.errorText.
    rewrite Hm. apply truthy_nonempty in Hne. rewrite Hne. reflexivity.
Qed.

(** A quota error keeps its status and message; an error without a message
    is shown as the connection-lost text. *)
Lemma generateSpeech_other_errors_propagate_witness :
  settled (generateSpeech
             (alwaysFails {| status := Some 429;
                             message := Some (js "Resource has been exhausted") |})
             (js "Hello") Zephyr en)
  = Rejected {| status := Some 429;
                message := Some (js "Resource has been exhausted") |}
  /\ error (App.resume (fun _ => Fulfilled []) (fun _ => js "blob:1")
              (Rejected {| status := None; message := None |}) App.idle)
     = Some App.connectionLost.
Proof.
  pose proof (generateSpeech_other_errors_propagate
                (alwaysFails {| status := Some 429;
                                message := Some (js "Resource has been exhausted") |})
                (js "Hello") Zephyr en
                {| status := Some 429;
                   message := Some (js "Resource has been exhausted") |}
                eq_refl) as H.
  destruct H as (Hsame & Hlost & _).
  - cbn. discriminate.
  - vm_compute. reflexivity.
  - split; [ exact Hsame | ].
    apply Hlost. left. reflexivity.
Defined.

(** C7 as stated fails on an error whose status is not 500 but whose message
    contains 500: it is replaced by the error of the retry message. *)
Lemma generateSpeech_message_500_rewritten :
  status {| status := Some 503;
            message := Some (js "Service unavailable, retry in 500 ms") |}
  = Some 503
  /\ settled (generateSpeech
                (alwaysFails
                   {| status := Some 503;
                      message := Some (js "Service unavailable, retry in 500 ms") |})
                (js "Hello") Zephyr en)
     = Rejected (newError hiccupMessage)
  /\ message (newError hiccupMessage)
     <> Some (js "Service unavailable, retry in 500 ms").
Proof.
  split; [ reflexivity | ].
  split; [ vm_compute; reflexivity | vm_compute; discriminate ].
Qed.

(** ** The generation state of [App] *)

Section AppFacts.

Variable decodeBase64 : jsstring -> Outcome (list byte).
Variable createObjectURL : list byte -> jsstring.

Local Abbreviation step := (App.step decodeBase64 createObjectURL).
Local Abbreviation run := (App.run decodeBase64 createObjectURL).
Local Abbreviation resume := (App.resume decodeBase64 createObjectURL).

Lemma run_snoc (evs : list App.Event) (ev : App.Event) :
  run (evs ++ [ev]) = step (run evs) ev.
Proof. unfold App.run. rewrite fold_left_app. reflexivity. Qed.

(** The status after [handleGenerate] resumed never says generating. *)
Lemma resume_not_generating outcome prev :
  isGenerating (resume outcome prev) = false.
Proof.
  unfold App.resume. destruct outcome as [base64 | err]; [ | reflexivity ].
  destruct (decodeBase64 base64); reflexivity.
Qed.

(** A failure writes the error and keeps the audio fields of the status it
    finds. *)
Lemma resume_rejected err prev :
  resume (Rejected err) prev
  = {| isGenerating := false; audioUrl := audioUrl prev;
       error := Some (App.errorText err); rawBuffer := rawBuffer prev |}.
Proof. reflexivity. Qed.

(** X12.  The generating flag goes from false to true only by a click on
    the generate button with a text that is not blank. *)
Lemma requesting_entered_by_submission (s : App.AppState) (ev : App.Event) :
  isGenerating (App.status s) = false ->
  isGenerating (App.status (step s ev)) = true ->
  ev = App.ClickGenerate /\ trim (App.text s) <> [].
Proof.
  intros Hidle Hreq. destruct ev as [value | v | lang | | | i ai]; cbn in Hreq.
  - congruence.
  - congruence.
  - congruence.
  - split; [ reflexivity | ].
    unfold App.generateDisabled in Hreq. rewrite Hidle in Hreq. cbn in Hreq.
    unfold App.handleGenerate in Hreq.
    destruct (App.isBlank (App.text s)) eqn:Hblank; [ congruence | ].
    unfold App.isBlank in Hblank. apply negb_false_iff in Hblank.
    apply truthy_nonempty. exact Hblank.
  - discriminate Hreq.
  - unfold App.settle in Hreq.
    destruct (nth_error (App.inFlight s) i); [ | congruence ].
    cbn in Hreq. rewrite resume_not_generating in Hreq. discriminate Hreq.
Qed.

(** While the flag is set, a click on the generate button changes nothing. *)
Lemma click_while_requesting_ignored (s : App.AppState) :
  isGenerating (App.status s) = true -> step s App.ClickGenerate = s.
Proof.
  intros Hreq. cbn. unfold App.generateDisabled. rewrite Hreq. reflexivity.
Qed.

(** A click on the clear button empties the text and resets the status; the
    calls in flight stay. *)
Lemma clear_returns_to_idle (s : App.AppState) :
  App.status (step s App.ClickClear) = App.idle
  /\ App.text (step s App.ClickClear) = []
  /\ App.inFlight (step s App.ClickClear) = App.inFlight s.
Proof. repeat split. Qed.

Lemma singleFlight_initial : singleFlight App.initial.
Proof.
  unfold singleFlight. cbn. split; [ discriminate | ].
  split; [ reflexivity | left; split; reflexivity ].
Qed.

Lemma singleFlight_step (s : App.AppState) (ev : App.Event) :
  ev <> App.ClickClear -> singleFlight s -> singleFlight (step s ev).
Proof.
  intros Hev Hs. pose proof Hs as (Hreq & Hidle & Hexcl).
  destruct ev as [value | v | lang | | | i ai]; cbn [App.step].
  - exact Hs.
  - exact Hs.
  - unfold singleFlight. cbn.
    split; [ | split; [ exact Hidle | left; split; reflexivity ] ].
    intros Hg. destruct (Hreq Hg) as (_ & _ & _ & Hlen).
    repeat split; try reflexivity. exact Hlen.
  - unfold App.generateDisabled.
    destruct (isGenerating (App.status s)) eqn:Hg; cbn [orb].
    + exact Hs.
    + destruct (App.isBlank (App.text s)) eqn:Hblank.
      * exact Hs.
      * unfold App.handleGenerate. rewrite Hblank.
        unfold singleFlight. cbn. rewrite (Hidle eq_refl). cbn.
        split; [ | split; [ discriminate | left; split; reflexivity ] ].
        intros _. repeat split; reflexivity.
  - exfalso. apply Hev. reflexivity.
  - unfold App.settle.
    destruct (nth_error (App.inFlight s) i) as [r | ] eqn:Hnth;
      [ | exact Hs ].
    destruct (isGenerating (App.status s)) eqn:Hg.
    + destruct (Hreq eq_refl) as (Haudio & Hraw & Herr & Hlen).
      destruct (App.inFlight s) as [ | r0 [ | r1 rest]] eqn:Hfl;
        try discriminate Hlen.
      destruct i as [ | i]; [ | destruct i; discriminate Hnth ].
      unfold singleFlight. cbn [App.status App.inFlight firstn skipn app].
      rewrite resume_not_generating.
      split; [ discriminate | ]. split; [ reflexivity | ].
      unfold App.resume.
      destruct (settled _) as [base64 | err].
      * destruct (decodeBase64 base64) as [pcm | err].
        -- right. reflexivity.
        -- left. cbn. split; assumption.
      * left. cbn. split; assumption.
    + rewrite (Hidle eq_refl) in Hnth. destruct i; discriminate Hnth.
Qed.

(** X11.  As long as the clear button is not used, audio and error are
    never both present and at most one call is in flight. *)
Lemma exclusive_without_clear (evs : list App.Event) :
  ~ In App.ClickClear evs ->
  singleFlight (run evs) /\ (List.length (App.inFlight (run evs)) <= 1)%nat.
Proof.
  intros Hnoclear.
  assert (Hinv : singleFlight (run evs)).
  { induction evs as [ | ev evs IH] using rev_ind.
    - exact singleFlight_initial.
    - rewrite run_snoc. apply singleFlight_step.
      + intros ->. apply Hnoclear. apply in_or_app. right. left. reflexivity.
      + apply IH. intros Hin. apply Hnoclear. apply in_or_app. left. exact Hin. }
  split; [ exact Hinv | ].
  destruct Hinv as (Hreq & Hidle & _).
  destruct (isGenerating (App.status (run evs))) eqn:Hg.
  - destruct (Hreq eq_refl) as (_ & _ & _ & Hlen). rewrite Hlen. lia.
  - rewrite (Hidle eq_refl). cbn. lia.
Qed.

End AppFacts.

(** ** Two calls in flight *)

(** C9 on the code.  After generate, clear, generate, two calls of
    [generateSpeech] are in flight at once: [handleClear] resets the
    generating flag, which enables the button again, and leaves the first
    call running. *)
Theorem clear_then_resubmit_overlaps decodeBase64 createObjectURL :
  App.inFlight (App.run decodeBase64 createObjectURL clearThenResubmit)
  = [App.mkRequest (js "a") Zephyr en; App.mkRequest (js "b") Zephyr en]
  /\ isGenerating
       (App.status (App.run decodeBase64 createObjectURL clearThenResubmit))
     = true
  /\ App.reachable decodeBase64 createObjectURL
       (App.run decodeBase64 createObjectURL clearThenResubmit).
Proof.
  split; [ vm_compute; reflexivity | ].
  split; [ vm_compute; reflexivity | ].
  exists clearThenResubmit. reflexivity.
Qed.

(** C8 on the code.  With two calls in flight, the first fulfils and shows
    its audio, then the second fails: the [catch] of [handleGenerate] keeps
    the audio fields it finds, so the status holds the audio of the first
    call and the error of the second. *)
Theorem stale_success_then_failure_shows_both decodeBase64 createObjectURL pcm :
  decodeBase64 (js "AAA=") = Fulfilled pcm ->
  App.status (App.run decodeBase64 createObjectURL staleSuccessThenFailure)
  = {| isGenerating := false;
       audioUrl := Some (createObjectURL (createWavFile pcm));
       error := Some blockedMessage;
       rawBuffer := Some pcm |}
  /\ App.hasAudio
       (App.status (App.run decodeBase64 createObjectURL staleSuccessThenFailure))
  /\ App.hasError
       (App.status (App.run decodeBase64 createObjectURL staleSuccessThenFailure))
  /\ App.reachable decodeBase64 createObjectURL
       (App.run decodeBase64 createObjectURL staleSuccessThenFailure).
Proof.
  intros Hdecode.
  assert (Hstatus :
    App.status (App.run decodeBase64 createObjectURL staleSuccessThenFailure)
    = {| isGenerating := false;
         audioUrl := Some (createObjectURL (createWavFile pcm));
         error := Some blockedMessage;
         rawBuffer := Some pcm |}).
  { unfold staleSuccessThenFailure, App.run. rewrite fold_left_app.
    cbn [fold_left].
    change (fold_left (App.step decodeBase64 createObjectURL) clearThenResubmit
              App.initial)
      with (App.run decodeBase64 createObjectURL clearThenResubmit).
    set (s := App.run decodeBase64 createObjectURL clearThenResubmit).
    assert (Hs : s = {| App.text := js "b"; App.selectedVoice := Zephyr;
                        App.selectedLanguage := en;
                        App.status := App.requesting App.idle;
                        App.inFlight := [App.mkRequest (js "a") Zephyr en;
                                         App.mkRequest (js "b") Zephyr en] |})
      by (vm_compute; reflexivity).
    rewrite Hs. clear s Hs.
    cbn [App.step App.settle App.inFlight nth_error App.requestText
         App.requestVoice App.requestLanguage App.status firstn skipn app
         App.text App.selectedVoice App.selectedLanguage].
    replace (settled (generateSpeech
               (alwaysAnswers (oneBlobResponse (js "audio/wav") (js "AAA=")))
               (js "a") Zephyr en))
      with (@Fulfilled jsstring (js "AAA=")) by (vm_compute; reflexivity).
    replace (settled (generateSpeech
               (alwaysAnswers {| GenAI.text := None; GenAI.candidates := Some [] |})
               (js "b") Zephyr en))
      with (@Rejected jsstring (newError blockedMessage))
      by (vm_compute; reflexivity).
    unfold App.resume at 2. rewrite Hdecode.
    rewrite resume_rejected. reflexivity. }
  split; [ exact Hstatus | ].
  split; [ | split ].
  - rewrite Hstatus. left. cbn. discriminate.
  - rewrite Hstatus. unfold App.hasError. cbn. discriminate.
  - exists staleSuccessThenFailure. reflexivity.
Qed.

(** The same run in a browser whose decoder yields two zero bytes. *)
Lemma stale_success_then_failure_shows_both_witness :
  App.status (App.run (fun _ => Fulfilled [x00; x00]%byte) (fun _ => js "blob:1")
                staleSuccessThenFailure)
  = {| isGenerating := false;
       audioUrl := Some (js "blob:1");
       error := Some blockedMessage;
       rawBuffer := Some [x00; x00]%byte |}.
Proof.
  apply (stale_success_then_failure_shows_both
           (fun _ => Fulfilled [x00; x00]%byte) (fun _ => js "blob:1")
           [x00; x00]%byte eq_refl).
Defined.

(** ** More on [generateSpeech]: its calls, its results and its errors *)

(** X1.  Whatever the service answers, [generateSpeech] sends one call for
    ['en'] and two for ['ml']: the translation call (only for ['ml'], first,
    with the prompt built from the input text) and then the synthesis call
    with the given voice.  The synthesis call is never skipped and no call is
    repeated. *)
Theorem generateSpeech_call_sequence ai text voiceName language :
  exists targetText,
    calls (generateSpeech ai text voiceName language)
    = match language with
      | en => [GenAI.SpeechPrompt ttsModel targetText voiceName]
      | ml => [GenAI.TextPrompt translationModel (translationPrompt text);
               GenAI.SpeechPrompt ttsModel targetText voiceName]
      end.
Proof.
  exists (targetTextOf ai text language).
  rewrite generateSpeech_calls. destruct language; reflexivity.
Qed.

(** How Step 2 ends, by the outcome of the synthesis call. *)
Lemma synthesize_cases ai targetText voiceName :
  (exists response candidate content parts p blob mime payload,
     ai (GenAI.SpeechPrompt ttsModel targetText voiceName) = Fulfilled response
     /\ firstCandidate response = Some candidate
     /\ GenAI.content candidate = Some content
     /\ GenAI.parts content = Some parts
     /\ In p parts
     /\ GenAI.inlineData p = Some blob
     /\ GenAI.mimeType blob = Some mime
     /\ startsWith mime (js "audio/") = true
     /\ GenAI.data blob = Some payload
     /\ payload <> []
     /\ settled (synthesize ai targetText voiceName) = Fulfilled payload)
  \/ settled (synthesize ai targetText voiceName)
     = Rejected (newError blockedMessage)
  \/ settled (synthesize ai targetText voiceName)
     = Rejected (newError couldNotProcessMessage)
  \/ (exists property,
        settled (synthesize ai targetText voiceName)
        = Rejected (typeErrorReading property))
  \/ (exists e,
        ai (GenAI.SpeechPrompt ttsModel targetText voiceName) = Rejected e
        /\ (statusIs500 e = true \/ messageIncludes500 e = true)
        /\ settled (synthesize ai targetText voiceName)
           = Rejected (newError hiccupMessage))
  \/ (exists e,
        ai (GenAI.SpeechPrompt ttsModel targetText voiceName) = Rejected e
        /\ statusIs500 e = false /\ messageIncludes500 e = false
        /\ settled (synthesize ai targetText voiceName) = Rejected e).
Proof.
  destruct (ai (GenAI.SpeechPrompt ttsModel targetText voiceName))
    as [response | e] eqn:Hai.
  - rewrite (synthesize_fulfilled _ _ _ _ Hai). unfold readAudio, contentParts.
    destruct (firstCandidate response) as [candidate | ] eqn:Hcand;
      [ | right; left; reflexivity ].
    destruct (GenAI.content candidate) as [content | ] eqn:Hcontent;
      [ | right; right; right; left; eexists; reflexivity ].
    destruct (GenAI.parts content) as [parts | ] eqn:Hparts;
      [ | right; right; right; left; eexists; reflexivity ].
    destruct (findPart isAudioPart parts) as [[p | ] | e] eqn:Hfind;
      [ | right; right; left; reflexivity
        | rewrite (findPart_isAudioPart_rejected _ _ Hfind);
          right; right; right; left; eexists; reflexivity ].
    destruct (findPart_split _ _ _ Hfind) as (before & after & Hsplit & _ & Hp).
    apply isAudioPart_true in Hp.
    destruct Hp as (blob & mime & Hblob & Hmime & Hstarts).
    rewrite Hblob.
    destruct (GenAI.data blob) as [payload | ] eqn:Hdata;
      [ | right; right; left; reflexivity ].
    destruct (truthy payload) eqn:Htr;
      [ | right; right; left; reflexivity ].
    left. exists response, candidate, content, parts, p, blob, mime, payload.
    apply truthy_nonempty in Htr.
    assert (Hin : In p parts)
      by (rewrite Hsplit; apply in_or_app; right; left; reflexivity).
    repeat split; assumption.
  - rewrite (synthesize_rejected _ _ _ _ Hai).
    destruct (statusIs500 e) eqn:Hs; cbn [orb].
    + right; right; right; right; left. exists e.
      split; [ reflexivity | ]. split; [ left; exact Hs | reflexivity ].
    + destruct (messageIncludes500 e) eqn:Hm.
      * right; right; right; right; left. exists e.
        split; [ reflexivity | ]. split; [ right; exact Hm | reflexivity ].
      * right; right; right; right; right. exists e.
        split; [ reflexivity | ]. split; [ exact Hs | ].
        split; [ exact Hm | reflexivity ].
Qed.

(** X2.  What [generateSpeech] returns is never the empty string, and it is
    the payload of a part of the first candidate of the synthesis response
    whose inline data has a MIME type starting with audio/. *)
Theorem generateSpeech_fulfilled_payload ai text voiceName language payload :
  settled (generateSpeech ai text voiceName language) = Fulfilled payload ->
  payload <> []
  /\ exists response candidate content parts p blob mime,
       ai (GenAI.SpeechPrompt ttsModel (targetTextOf ai text language) voiceName)
       = Fulfilled response
       /\ firstCandidate response = Some candidate
       /\ GenAI.content candidate = Some content
       /\ GenAI.parts content = Some parts
       /\ In p parts
       /\ GenAI.inlineData p = Some blob
       /\ GenAI.mimeType blob = Some mime
       /\ startsWith mime (js "audio/") = true
       /\ GenAI.data blob = Some payload.
Proof.
  rewrite generateSpeech_settled. intros Hok.
  destruct (synthesize_cases ai (targetTextOf ai text language) voiceName)
    as [(response & candidate & content & parts & p & blob & mime & payload'
         & Hai & Hcand & Hcontent & Hparts & Hin & Hblob & Hmime & Hstarts
         & Hdata & Hne & Hres)
       | [Hres | [Hres | [(property & Hres)
       | [(e & _ & _ & Hres) | (e & _ & _ & _ & Hres)]]]]];
    rewrite Hres in Hok; try discriminate Hok.
  injection Hok as <-. split; [ exact Hne | ].
  exists response, candidate, content, parts, p, blob, mime.
  repeat split; assumption.
Qed.

(** The payload returned for the response with a text part and two audio
    parts is not empty and sits in one of its parts. *)
Lemma generateSpeech_fulfilled_payload_witness :
  js "AAA=" <> []
  /\ exists response candidate content parts p blob mime,
       alwaysAnswers textThenTwoAudio
         (GenAI.SpeechPrompt ttsModel
            (targetTextOf (alwaysAnswers textThenTwoAudio) (js "Hello") en)
            Zephyr)
       = Fulfilled response
       /\ firstCandidate response = Some candidate
       /\ GenAI.content candidate = Some content
       /\ GenAI.parts content = Some parts
       /\ In p parts
       /\ GenAI.inlineData p = Some blob
       /\ GenAI.mimeType blob = Some mime
       /\ startsWith mime (js "audio/") = true
       /\ GenAI.data blob = Some (js "AAA=").
Proof.
  apply (generateSpeech_fulfilled_payload
           (alwaysAnswers textThenTwoAudio) (js "Hello") Zephyr en (js "AAA=")).
  vm_compute. reflexivity.
Defined.

Lemma statusIs500_false (e : JsError) :
  statusIs500 e = false -> status e <> Some 500.
Proof.
  unfold statusIs500. intros H Hs. rewrite Hs in H. discriminate H.
Qed.

(** X3.  [generateSpeech] rejects only with one of its three own errors
    (blocked, could not process, retry), with the [TypeError] of reading a
    property of an absent content, parts or MIME type of the response, or
    with the error of the synthesis call itself, the latter only when that
    error's message does not contain 500; in no case does the rejected error
    carry the status 500. *)
Theorem generateSpeech_rejection_reasons ai text voiceName language err :
  settled (generateSpeech ai text voiceName language) = Rejected err ->
  (err = newError blockedMessage
   \/ err = newError couldNotProcessMessage
   \/ err = newError hiccupMessage
   \/ (exists property, err = typeErrorReading property)
   \/ (ai (GenAI.SpeechPrompt ttsModel (targetTextOf ai text language) voiceName)
       = Rejected err
       /\ messageIncludes500 err = false))
  /\ status err <> Some 500.
Proof.
  rewrite generateSpeech_settled. intros Hrej.
  destruct (synthesize_cases ai (targetTextOf ai text language) voiceName)
    as [(response & candidate & content & parts & p & blob & mime & payload
         & _ & _ & _ & _ & _ & _ & _ & _ & _ & _ & Hres)
       | [Hres | [Hres | [(property & Hres)
       | [(e & _ & _ & Hres) | (e & Hai & Hs & Hm & Hres)]]]]];
    rewrite Hres in Hrej; try discriminate Hrej; injection Hrej as <-.
  - split; [ left; reflexivity | cbn; discriminate ].
  - split; [ right; left; reflexivity | cbn; discriminate ].
  - split; [ right; right; right; left; exists property; reflexivity | ].
    cbn. discriminate.
  - split; [ right; right; left; reflexivity | cbn; discriminate ].
  - split; [ right; right; right; right; split; assumption | ].
    apply statusIs500_false. exact Hs.
Qed.

(** A quota error of the service is the rejection itself. *)
Lemma generateSpeech_rejection_reasons_witness :
  (mkError (Some 429) (Some (js "Resource has been exhausted"))
   = newError blockedMessage
   \/ mkError (Some 429) (Some (js "Resource has been exhausted"))
      = newError couldNotProcessMessage
   \/ mkError (Some 429) (Some (js "Resource has been exhausted"))
      = newError hiccupMessage
   \/ (exists property,
         mkError (Some 429) (Some (js "Resource has been exhausted"))
         = typeErrorReading property)
   \/ (alwaysFails (mkError (Some 429) (Some (js "Resource has been exhausted")))
         (GenAI.SpeechPrompt ttsModel
            (targetTextOf
               (alwaysFails
                  (mkError (Some 429) (Some (js "Resource has been exhausted"))))
               (js "Hello") ml)
            Kore)
       = Rejected (mkError (Some 429) (Some (js "Resource has been exhausted")))
       /\ messageIncludes500
            (mkError (Some 429) (Some (js "Resource has been exhausted")))
          = false))
  /\ status (mkError (Some 429) (Some (js "Resource has been exhausted")))
     <> Some 500.
Proof.
  apply (generateSpeech_rejection_reasons
           (alwaysFails (mkError (Some 429) (Some (js "Resource has been exhausted"))))
           (js "Hello") Kore ml
           (mkError (Some 429) (Some (js "Resource has been exhausted")))).
  vm_compute. reflexivity.
Defined.

Lemma readInMalayalam_app_nonempty (text : jsstring) :
  readInMalayalam ++ text <> [].
Proof.
  intros H. apply (f_equal (@List.length N)) in H.
  rewrite length_app in H.
  assert (0 < List.length readInMalayalam)%nat by (vm_compute; lia).
  cbn [List.length] in H. lia.
Qed.

(** X4.  [generateSpeech] has no guard of its own against an empty text: the
    synthesis call carries the empty string exactly when the input text is
    empty and nothing replaced it, that is for ['en'], or for ['ml'] when the
    translation call succeeded with a text that is absent or blank.  A
    failed translation and a translation that is not blank never give an
    empty synthesis text. *)
Theorem generateSpeech_empty_prompt ai text language :
  targetTextOf ai text language = []
  <->
  text = []
  /\ (language = en
      \/ exists response,
           ai (GenAI.TextPrompt translationModel (translationPrompt text))
           = Fulfilled response
           /\ (GenAI.text response = None
               \/ exists t, GenAI.text response = Some t /\ trim t = [])).
Proof.
  destruct language.
  - rewrite targetTextOf_en. split.
    + intros ->. split; [ reflexivity | left; reflexivity ].
    + intros [-> _]. reflexivity.
  - rewrite targetTextOf_ml.
    destruct (ai (GenAI.TextPrompt translationModel (translationPrompt text)))
      as [response | e].
    + destruct (GenAI.text response) as [t | ] eqn:Ht.
      * destruct (truthy (trim t)) eqn:Htr.
        -- apply truthy_nonempty in Htr. split.
           ++ intros Hempty. contradiction.
           ++ intros [_ [Hen | (r & [= <-] & [Hnone | (t' & Hsome & Hblank)])]].
              ** discriminate Hen.
              ** rewrite Ht in Hnone. discriminate Hnone.
              ** rewrite Ht in Hsome. injection Hsome as <-. contradiction.
        -- apply truthy_empty in Htr. split.
           ++ intros ->. split; [ reflexivity | ]. right. exists response.
              split; [ reflexivity | ]. right. exists t. split; assumption.
           ++ intros [-> _]. reflexivity.
      * split.
        -- intros ->. split; [ reflexivity | ]. right. exists response.
           split; [ reflexivity | ]. left. exact Ht.
        -- intros [-> _]. reflexivity.
    + split.
      * intros H. destruct (readInMalayalam_app_nonempty text H).
      * intros [_ [Hen | (r & Hr & _)]]; discriminate.
Qed.

(** ** More on [App]: invariants of every run *)

Section AppInvariants.

Variable decodeBase64 : jsstring -> Outcome (list byte).
Variable createObjectURL : list byte -> jsstring.

Local Abbreviation step' := (App.step decodeBase64 createObjectURL).
Local Abbreviation run' := (App.run decodeBase64 createObjectURL).
Local Abbreviation resume' := (App.resume decodeBase64 createObjectURL).

(** A property of the initial state that every event preserves holds after
    every run. *)
Lemma run_invariant (P : App.AppState -> Prop) :
  P App.initial ->
  (forall s ev, P s -> P (step' s ev)) ->
  forall evs, P (run' evs).
Proof.
  intros Hinit Hstep evs.
  induction evs as [ | ev evs IH] using rev_ind.
  - exact Hinit.
  - unfold App.run. rewrite fold_left_app. cbn [fold_left].
    apply Hstep. exact IH.
Qed.

Lemma Forall_firstn_skipn {A : Type} (P : A -> Prop) (i : nat) (l : list A) :
  Forall P l -> Forall P (firstn i l ++ skipn (S i) l).
Proof.
  intros Hall. rewrite Forall_forall in *. intros x Hx.
  apply in_app_or in Hx. destruct Hx as [Hx | Hx].
  - apply Hall. rewrite <- (firstn_skipn i l). apply in_or_app. left. exact Hx.
  - apply Hall. rewrite <- (firstn_skipn (S i) l). apply in_or_app. right.
    exact Hx.
Qed.

Lemma boundedInput_step (s : App.AppState) (ev : App.Event) :
  boundedInput s -> boundedInput (step' s ev).
Proof.
  intros [Htext Hreqs].
  destruct ev as [value | v | lang | | | i ai]; cbn [App.step].
  - split; [ | exact Hreqs ].
    cbn [App.changeText App.text]. unfold slice0. apply firstn_le_length.
  - split; assumption.
  - split; assumption.
  - destruct (App.generateDisabled s); [ split; assumption | ].
    unfold App.handleGenerate.
    destruct (App.isBlank (App.text s)) eqn:Hblank; [ split; assumption | ].
    split; [ exact Htext | ].
    cbn [App.inFlight]. apply Forall_app. split; [ exact Hreqs | ].
    constructor; [ | constructor ].
    split; [ | exact Htext ].
    cbn [App.requestText]. unfold App.isBlank in Hblank.
    apply negb_false_iff in Hblank. apply truthy_nonempty. exact Hblank.
  - split; [ cbn; lia | exact Hreqs ].
  - unfold App.settle.
    destruct (nth_error (App.inFlight s) i); [ | split; assumption ].
    split; [ exact Htext | ].
    cbn [App.inFlight]. apply Forall_firstn_skipn. exact Hreqs.
Qed.

Lemma requestingIsClean_step (s : App.AppState) (ev : App.Event) :
  requestingIsClean s -> requestingIsClean (step' s ev).
Proof.
  intros Hs.
  destruct ev as [value | v | lang | | | i ai]; cbn [App.step].
  - exact Hs.
  - exact Hs.
  - intros Hg. cbn in Hg. destruct (Hs Hg) as (_ & _ & _ & Hfl).
    cbn. repeat split; try reflexivity. exact Hfl.
  - destruct (App.generateDisabled s); [ exact Hs | ].
    unfold App.handleGenerate.
    destruct (App.isBlank (App.text s)); [ exact Hs | ].
    intros _. cbn. repeat split; try reflexivity.
    intros H. apply app_eq_nil in H. destruct H as [_ H]. discriminate H.
  - intros Hg. discriminate Hg.
  - unfold App.settle.
    destruct (nth_error (App.inFlight s) i); [ | exact Hs ].
    intros Hg. cbn [App.status] in Hg.
    rewrite resume_not_generating in Hg. discriminate Hg.
Qed.

Lemma audioCoherent_step (s : App.AppState) (ev : App.Event) :
  audioCoherent createObjectURL (App.status s) ->
  audioCoherent createObjectURL (App.status (step' s ev)).
Proof.
  intros Hs.
  destruct ev as [value | v | lang | | | i ai]; cbn [App.step].
  - exact Hs.
  - exact Hs.
  - left. split; reflexivity.
  - destruct (App.generateDisabled s); [ exact Hs | ].
    unfold App.handleGenerate.
    destruct (App.isBlank (App.text s)); [ exact Hs | ].
    left. split; reflexivity.
  - left. split; reflexivity.
  - unfold App.settle.
    destruct (nth_error (App.inFlight s) i); [ | exact Hs ].
    cbn [App.status]. unfold App.resume.
    destruct (settled _) as [base64 | err]; [ | exact Hs ].
    destruct (decodeBase64 base64) as [pcm | err]; [ | exact Hs ].
    right. exists pcm. split; reflexivity.
Qed.

Lemma errorText_nonempty (err : JsError) : App.errorText err <> [].
Proof.
  unfold App.errorText. destruct (message err) as [m | ].
  - destruct (truthy m) eqn:Hm.
    + apply truthy_nonempty. exact Hm.
    + vm_compute. discriminate.
  - vm_compute. discriminate.
Qed.

Lemma errorNonEmpty_step (s : App.AppState) (ev : App.Event) :
  errorNonEmpty (App.status s) -> errorNonEmpty (App.status (step' s ev)).
Proof.
  intros Hs.
  destruct ev as [value | v | lang | | | i ai]; cbn [App.step].
  - exact Hs.
  - exact Hs.
  - intros m Hm. discriminate Hm.
  - destruct (App.generateDisabled s); [ exact Hs | ].
    unfold App.handleGenerate.
    destruct (App.isBlank (App.text s)); [ exact Hs | ].
    intros m Hm. discriminate Hm.
  - intros m Hm. discriminate Hm.
  - unfold App.settle.
    destruct (nth_error (App.inFlight s) i); [ | exact Hs ].
    cbn [App.status]. unfold App.resume.
    assert (Hfailed : forall err,
               errorNonEmpty (App.failed err (App.status s))).
    { intros err m Hm. cbn in Hm. injection Hm as <-.
      apply errorText_nonempty. }
    destruct (settled _) as [base64 | err]; [ | apply Hfailed ].
    destruct (decodeBase64 base64) as [pcm | err]; [ | apply Hfailed ].
    intros m Hm. discriminate Hm.
Qed.

End AppInvariants.

(** X5.  After every run the text area holds at most 500 code units, and
    every call of [generateSpeech] in flight was started with a text that is
    not blank and has at most 500 code units. *)
Theorem text_and_requests_bounded decodeBase64 createObjectURL evs :
  (View.counter (App.run decodeBase64 createObjectURL evs) <= 500)%nat
  /\ Forall submittable
       (App.inFlight (App.run decodeBase64 createObjectURL evs)).
Proof.
  apply (run_invariant decodeBase64 createObjectURL boundedInput).
  - split; [ cbn; lia | constructor ].
  - intros s ev. apply boundedInput_step.
Qed.

Lemma trim_nonempty (t : jsstring) : trim t <> [] -> t <> [].
Proof. intros H ->. apply H. reflexivity. Qed.

Lemma targetTextOf_nonempty ai text language :
  text <> [] -> targetTextOf ai text language <> [].
Proof.
  intros Htext. destruct language.
  - rewrite targetTextOf_en. exact Htext.
  - rewrite targetTextOf_ml.
    destruct (ai _) as [response | e].
    + destruct (GenAI.text response) as [t | ]; [ | exact Htext ].
      destruct (truthy (trim t)) eqn:Htr; [ | exact Htext ].
      apply truthy_nonempty. exact Htr.
    + apply readInMalayalam_app_nonempty.
Qed.

(** X6.  Whatever the user does and whatever the service answers, the
    synthesis call of a call in flight never carries the empty string. *)
Theorem synthesis_prompt_never_empty decodeBase64 createObjectURL evs ai :
  Forall (fun r =>
            exists targetText,
              targetText <> []
              /\ calls (generateSpeech ai (App.requestText r)
                          (App.requestVoice r) (App.requestLanguage r))
                 = translationCalls (App.requestText r) (App.requestLanguage r)
                   ++ [GenAI.SpeechPrompt ttsModel targetText
                         (App.requestVoice r)])
    (App.inFlight (App.run decodeBase64 createObjectURL evs)).
Proof.
  assert (Hb : boundedInput (App.run decodeBase64 createObjectURL evs)).
  { apply (run_invariant decodeBase64 createObjectURL boundedInput).
    - split; [ cbn; lia | constructor ].
    - intros s ev. apply boundedInput_step. }
  destruct Hb as [_ Hreqs]. rewrite Forall_forall in *.
  intros r Hr. destruct (Hreqs r Hr) as [Hnonblank _].
  exists (targetTextOf ai (App.requestText r) (App.requestLanguage r)).
  split.
  - apply targetTextOf_nonempty. apply trim_nonempty. exact Hnonblank.
  - apply generateSpeech_calls.
Qed.

(** X7.  Whenever the generating flag is set, also with several calls in
    flight, neither the error panel nor the result panel is rendered, the
    generate button is disabled and reads Converting..., and a call is in
    flight. *)
Theorem requesting_shows_no_result decodeBase64 createObjectURL evs :
  isGenerating (App.status (App.run decodeBase64 createObjectURL evs)) = true ->
  View.errorPanel (App.run decodeBase64 createObjectURL evs) = None
  /\ (forall canShareFiles,
        View.audioPanel canShareFiles (App.run decodeBase64 createObjectURL evs)
        = None)
  /\ rawBuffer (App.status (App.run decodeBase64 createObjectURL evs)) = None
  /\ App.generateDisabled (App.run decodeBase64 createObjectURL evs) = true
  /\ View.generateLabel (App.run decodeBase64 createObjectURL evs)
     = js "Converting..."
  /\ App.inFlight (App.run decodeBase64 createObjectURL evs) <> [].
Proof.
  intros Hg.
  assert (Hclean : requestingIsClean (App.run decodeBase64 createObjectURL evs)).
  { apply (run_invariant decodeBase64 createObjectURL requestingIsClean).
    - intros H. discriminate H.
    - intros s ev. apply requestingIsClean_step. }
  destruct (Hclean Hg) as (Haudio & Hraw & Herr & Hfl).
  unfold View.errorPanel, View.audioPanel, App.generateDisabled,
    View.generateLabel.
  rewrite Haudio, Herr, Hg.
  split; [ reflexivity | ]. split; [ reflexivity | ].
  split; [ exact Hraw | ]. split; [ reflexivity | ].
  split; [ reflexivity | exact Hfl ].
Qed.

(** Two calls in flight: the flag is set and nothing is shown. *)
Lemma requesting_shows_no_result_witness :
  View.errorPanel
    (App.run (fun _ => Fulfilled [x00; x00]%byte) (fun _ => js "blob:1")
       clearThenResubmit) = None
  /\ View.generateLabel
       (App.run (fun _ => Fulfilled [x00; x00]%byte) (fun _ => js "blob:1")
          clearThenResubmit) = js "Converting...".
Proof.
  pose proof (requesting_shows_no_result
                (fun _ => Fulfilled [x00; x00]%byte) (fun _ => js "blob:1")
                clearThenResubmit) as H.
  destruct H as (Herr & _ & _ & _ & Hlabel & _).
  - vm_compute. reflexivity.
  - split; [ exact Herr | exact Hlabel ].
Defined.

(** X8.  The error panel is rendered exactly when the status holds an error,
    with that text: an error description is never the empty string. *)
Theorem error_panel_shows_every_error decodeBase64 createObjectURL evs :
  View.errorPanel (App.run decodeBase64 createObjectURL evs)
  = error (App.status (App.run decodeBase64 createObjectURL evs))
  /\ errorNonEmpty (App.status (App.run decodeBase64 createObjectURL evs)).
Proof.
  assert (Hne : errorNonEmpty
                  (App.status (App.run decodeBase64 createObjectURL evs))).
  { apply (run_invariant decodeBase64 createObjectURL
             (fun s => errorNonEmpty (App.status s))).
    - intros m Hm. discriminate Hm.
    - intros s ev. apply errorNonEmpty_step. }
  split; [ | exact Hne ].
  unfold View.errorPanel.
  destruct (error (App.status (App.run decodeBase64 createObjectURL evs)))
    as [m | ] eqn:Herr; [ | reflexivity ].
  pose proof (Hne m Herr) as Hm. apply truthy_nonempty in Hm.
  rewrite Hm. reflexivity.
Qed.

(** X9.  Whenever the result panel is rendered, with its save and share
    buttons, the status holds a raw buffer, the audio element plays the URL
    of the container of that buffer, [handleDownload] saves that URL, and
    [handleShare] does not return early: it builds the same container again
    and, where the browser can share it, shares exactly those bytes. *)
Theorem panel_audio_is_saved_and_shared decodeBase64 createObjectURL evs
  canShareFiles panel :
  View.audioPanel canShareFiles (App.run decodeBase64 createObjectURL evs)
  = Some panel ->
  exists pcm,
    rawBuffer (App.status (App.run decodeBase64 createObjectURL evs)) = Some pcm
    /\ View.audioSrc panel = createObjectURL (createWavFile pcm)
    /\ (forall stamp,
          Handlers.handleDownload stamp
            (App.run decodeBase64 createObjectURL evs)
          = Some (View.audioSrc panel, js "vocal-ease-" ++ stamp ++ js ".wav"))
    /\ (forall canShare stamp,
          Handlers.handleShare canShare stamp
            (App.run decodeBase64 createObjectURL evs)
          = if canShare (createWavFile pcm)
            then Handlers.ShareFile (js "voice-" ++ stamp ++ js ".wav")
                   (createWavFile pcm) (js "VocalEase Voice Note")
                   (js "Listen to this voice message generated via VocalEase.")
            else Handlers.ShareUnsupported
                   (js "Sharing is not supported on this browser. Use the Save button.")).
Proof.
  intros Hpanel.
  assert (Hco : audioCoherent createObjectURL
                  (App.status (App.run decodeBase64 createObjectURL evs))).
  { apply (run_invariant decodeBase64 createObjectURL
             (fun s => audioCoherent createObjectURL (App.status s))).
    - left. split; reflexivity.
    - intros s ev. apply audioCoherent_step. }
  unfold View.audioPanel in Hpanel.
  destruct Hco as [[Hnone _] | (pcm & Hraw & Hurl)].
  - rewrite Hnone in Hpanel. discriminate Hpanel.
  - rewrite Hurl in Hpanel.
    destruct (truthy (createObjectURL (createWavFile pcm))) eqn:Htr;
      [ | discriminate Hpanel ].
    injection Hpanel as <-. exists pcm.
    split; [ exact Hraw | ]. split; [ reflexivity | ].
    split.
    + intros stamp. unfold Handlers.handleDownload. rewrite Hurl, Htr.
      reflexivity.
    + intros canShare stamp. unfold Handlers.handleShare. rewrite Hraw.
      reflexivity.
Qed.

(** After one successful generation the save button downloads the URL that
    is playing, under a name made of the time stamp. *)
Lemma panel_audio_is_saved_and_shared_witness :
  Handlers.handleDownload (js "1700000000000")
    (App.run (fun _ => Fulfilled [x00; x00]%byte) (fun _ => js "blob:1")
       oneGeneration)
  = Some (js "blob:1", js "vocal-ease-1700000000000.wav").
Proof.
  destruct (panel_audio_is_saved_and_shared
              (fun _ => Fulfilled [x00; x00]%byte) (fun _ => js "blob:1")
              oneGeneration true
              {| View.versionLabel := js "English Version";
                 View.audioSrc := js "blob:1";
                 View.shareOffered := true |})
    as (pcm & _ & _ & Hdownload & _).
  - vm_compute. reflexivity.
  - exact (Hdownload (js "1700000000000")).
Defined.

(** X10.  When a call in flight settles, the generating flag is cleared and
    the call leaves the list; the status then holds either the audio of this
    call and no error, when [generateSpeech] fulfilled and the payload
    decoded, or an error text and the audio fields as they were, when
    [generateSpeech] rejected or [decodeBase64] threw on its payload. *)
Theorem settle_outcome decodeBase64 createObjectURL s i r ai :
  nth_error (App.inFlight s) i = Some r ->
  isGenerating
    (App.status (App.step decodeBase64 createObjectURL s (App.Settle i ai)))
  = false
  /\ S (List.length
          (App.inFlight
             (App.step decodeBase64 createObjectURL s (App.Settle i ai))))
     = List.length (App.inFlight s)
  /\ ((exists base64 pcm,
         settled (generateSpeech ai (App.requestText r) (App.requestVoice r)
                    (App.requestLanguage r)) = Fulfilled base64
         /\ decodeBase64 base64 = Fulfilled pcm
         /\ App.status
              (App.step decodeBase64 createObjectURL s (App.Settle i ai))
            = {| isGenerating := false;
                 audioUrl := Some (createObjectURL (createWavFile pcm));
                 error := None;
                 rawBuffer := Some pcm |})
      \/ (exists err,
            (settled (generateSpeech ai (App.requestText r) (App.requestVoice r)
                        (App.requestLanguage r)) = Rejected err
             \/ exists base64,
                  settled (generateSpeech ai (App.requestText r)
                             (App.requestVoice r) (App.requestLanguage r))
                  = Fulfilled base64
                  /\ decodeBase64 base64 = Rejected err)
            /\ App.status
                 (App.step decodeBase64 createObjectURL s (App.Settle i ai))
               = {| isGenerating := false;
                    audioUrl := audioUrl (App.status s);
                    error := Some (App.errorText err);
                    rawBuffer := rawBuffer (App.status s) |})).
Proof.
  intros Hnth. cbn [App.step]. unfold App.settle. rewrite Hnth.
  cbn [App.status App.inFlight].
  split; [ apply resume_not_generating | ].
  split.
  - assert (Hlt : (i < List.length (App.inFlight s))%nat)
      by (apply nth_error_Some; rewrite Hnth; discriminate).
    rewrite length_app, length_firstn, length_skipn. lia.
  - unfold App.resume.
    destruct (settled _) as [base64 | err] eqn:Hres.
    + destruct (decodeBase64 base64) as [pcm | err] eqn:Hdec.
      * left. exists base64, pcm. repeat split. exact Hdec.
      * right. exists err. split; [ | reflexivity ].
        right. exists base64. split; [ reflexivity | exact Hdec ].
    + right. exists err. split; [ left; reflexivity | reflexivity ].
Qed.

(** A payload the decoder refuses ends in the error state with the decoder's
    message. *)
Lemma settle_outcome_witness :
  App.status
    (App.step (fun _ => Rejected (newError (js "Invalid character")))
       (fun _ => js "blob:1")
       (App.run (fun _ => Rejected (newError (js "Invalid character")))
          (fun _ => js "blob:1")
          [App.ChangeText (js "hi"); App.ClickGenerate])
       (App.Settle 0
          (alwaysAnswers (oneBlobResponse (js "audio/wav") (js "A")))))
  = {| isGenerating := false; audioUrl := None;
       error := Some (js "Invalid character"); rawBuffer := None |}.
Proof.
  destruct (settle_outcome
              (fun _ => Rejected (newError (js "Invalid character")))
              (fun _ => js "blob:1")
              (App.run (fun _ => Rejected (newError (js "Invalid character")))
                 (fun _ => js "blob:1")
                 [App.ChangeText (js "hi"); App.ClickGenerate])
              0 (App.mkRequest (js "hi") Zephyr en)
              (alwaysAnswers (oneBlobResponse (js "audio/wav") (js "A")))
              eq_refl)
    as (_ & _ & [(base64 & pcm & _ & Hdec & _) | (err & Hwhy & Hstatus)]).
  - discriminate Hdec.
  - destruct Hwhy as [Hrej | (base64 & _ & Hdec)].
    + vm_compute in Hrej. discriminate Hrej.
    + injection Hdec as <-. exact Hstatus.
Defined.

(** A run without the clear button: one successful generation. *)
Lemma exclusive_without_clear_witness :
  singleFlight
    (App.run (fun _ => Fulfilled [x00; x00]%byte) (fun _ => js "blob:1")
       oneGeneration)
  /\ (List.length
        (App.inFlight
           (App.run (fun _ => Fulfilled [x00; x00]%byte) (fun _ => js "blob:1")
              oneGeneration)) <= 1)%nat.
Proof.
  apply (exclusive_without_clear
           (fun _ => Fulfilled [x00; x00]%byte) (fun _ => js "blob:1")
           oneGeneration).
  intros [H | [H | [H | []]]]; discriminate H.
Defined.

(** The click that sets the flag, on the text hi. *)
Lemma requesting_entered_by_submission_witness :
  App.ClickGenerate = App.ClickGenerate
  /\ trim (App.text
             (App.run (fun _ => Fulfilled [x00; x00]%byte) (fun _ => js "blob:1")
                [App.ChangeText (js "hi")])) <> [].
Proof.
  apply (requesting_entered_by_submission
           (fun _ => Fulfilled [x00; x00]%byte) (fun _ => js "blob:1")
           (App.run (fun _ => Fulfilled [x00; x00]%byte) (fun _ => js "blob:1")
              [App.ChangeText (js "hi")])
           App.ClickGenerate);
    reflexivity.
Defined.

(** X13.  [handleClear] does not cancel a call in flight: when the call
    settles after the click on clear, its result is written over the idle
    status all the same, the audio when it succeeded and the error when it
    failed, while the text stays empty. *)
Theorem clear_does_not_cancel decodeBase64 createObjectURL s i r ai :
  nth_error (App.inFlight s) i = Some r ->
  App.text
    (App.step decodeBase64 createObjectURL
       (App.step decodeBase64 createObjectURL s App.ClickClear)
       (App.Settle i ai)) = []
  /\ App.status
       (App.step decodeBase64 createObjectURL
          (App.step decodeBase64 createObjectURL s App.ClickClear)
          (App.Settle i ai))
     = App.resume decodeBase64 createObjectURL
         (settled (generateSpeech ai (App.requestText r) (App.requestVoice r)
                     (App.requestLanguage r)))
         App.idle
  /\ App.status
       (App.step decodeBase64 createObjectURL
          (App.step decodeBase64 createObjectURL s App.ClickClear)
          (App.Settle i ai))
     <> App.idle.
Proof.
  intros Hnth. cbn [App.step]. unfold App.settle, App.handleClear.
  cbn [App.inFlight]. rewrite Hnth. cbn [App.text App.status].
  split; [ reflexivity | ]. split; [ reflexivity | ].
  unfold App.resume.
  destruct (settled _) as [base64 | err].
  - destruct (decodeBase64 base64) as [pcm | err]; discriminate.
  - discriminate.
Qed.

(** The audio of a call shows up after the text was cleared. *)
Lemma clear_does_not_cancel_witness :
  App.status
    (App.run (fun _ => Fulfilled [x00; x00]%byte) (fun _ => js "blob:1")
       [App.ChangeText (js "hi"); App.ClickGenerate; App.ClickClear;
        App.Settle 0
          (alwaysAnswers (oneBlobResponse (js "audio/wav") (js "AAA=")))])
  = {| isGenerating := false; audioUrl := Some (js "blob:1"); error := None;
       rawBuffer := Some [x00; x00]%byte |}.
Proof.
  apply (proj1 (proj2 (clear_does_not_cancel
                         (fun _ => Fulfilled [x00; x00]%byte)
                         (fun _ => js "blob:1")
                         (App.run (fun _ => Fulfilled [x00; x00]%byte)
                            (fun _ => js "blob:1")
                            [App.ChangeText (js "hi"); App.ClickGenerate])
                         0 (App.mkRequest (js "hi") Zephyr en)
                         (alwaysAnswers
                            (oneBlobResponse (js "audio/wav") (js "AAA=")))
                         eq_refl))).
Defined.

(** ** Blank texts *)

Lemma trimStart_nil_iff (s : jsstring) :
  trimStart s = [] <-> forallb isWhiteSpace s = true.
Proof.
  induction s as [ | c s IH]; cbn [trimStart forallb].
  - split; reflexivity.
  - destruct (isWhiteSpace c); cbn [andb]; [ exact IH | ].
    split; discriminate.
Qed.

Lemma trimStart_fixed (s : jsstring) :
  forallb isWhiteSpace (trimStart s) = true -> trimStart s = [].
Proof.
  induction s as [ | c s IH]; cbn [trimStart]; [ reflexivity | ].
  destruct (isWhiteSpace c) eqn:Hc; [ exact IH | ].
  cbn [forallb]. rewrite Hc. discriminate.
Qed.

Lemma forallb_rev {A : Type} (f : A -> bool) (l : list A) :
  forallb f (rev l) = forallb f l.
Proof.
  induction l as [ | a l IH]; cbn [rev forallb]; [ reflexivity | ].
  rewrite forallb_app, IH. cbn [forallb]. rewrite andb_true_r.
  apply andb_comm.
Qed.

Lemma trim_nil_iff (s : jsstring) :
  trim s = [] <-> forallb isWhiteSpace s = true.
Proof.
  unfold trim, trimEnd. split.
  - intros H. apply (f_equal (@rev N)) in H. rewrite rev_involutive in H.
    cbn [rev] in H. apply trimStart_nil_iff in H. rewrite forallb_rev in H.
    apply trimStart_nil_iff. apply trimStart_fixed. exact H.
  - intros H. apply trimStart_nil_iff in H. rewrite H. reflexivity.
Qed.

(** X14.  The generate button is disabled exactly while the generating flag
    is set or every code unit of the text is white space (the empty text
    included); on such a text [handleGenerate] itself does nothing either. *)
Theorem generate_disabled_iff_blank (s : App.AppState) :
  App.generateDisabled s
  = (isGenerating (App.status s) || forallb isWhiteSpace (App.text s))
  /\ (forallb isWhiteSpace (App.text s) = true -> App.handleGenerate s = s)
  /\ (forallb isWhiteSpace (App.text s) = false ->
      App.inFlight (App.handleGenerate s)
      = App.inFlight s
        ++ [App.mkRequest (App.text s) (App.selectedVoice s)
              (App.selectedLanguage s)]).
Proof.
  assert (Hblank : App.isBlank (App.text s)
                   = forallb isWhiteSpace (App.text s)).
  { unfold App.isBlank.
    destruct (forallb isWhiteSpace (App.text s)) eqn:Hws.
    - apply trim_nil_iff in Hws. rewrite Hws. reflexivity.
    - destruct (truthy (trim (App.text s))) eqn:Htr; [ reflexivity | ].
      apply truthy_empty in Htr. apply trim_nil_iff in Htr. congruence. }
  unfold App.generateDisabled, App.handleGenerate. rewrite Hblank.
  split; [ reflexivity | ].
  split; intros ->; reflexivity.
Qed.

(** A text of a tab and two spaces starts nothing; the text hi starts a
    call. *)
Lemma generate_disabled_iff_blank_witness :
  App.handleGenerate
    (App.changeText [9; 32; 32]%N App.initial)
  = App.changeText [9; 32; 32]%N App.initial
  /\ App.inFlight (App.handleGenerate (App.changeText (js "hi") App.initial))
     = [App.mkRequest (js "hi") Zephyr en].
Proof.
  split.
  - apply (proj1 (proj2 (generate_disabled_iff_blank
                           (App.changeText [9; 32; 32]%N App.initial)))).
    reflexivity.
  - apply (proj2 (proj2 (generate_disabled_iff_blank
                           (App.changeText (js "hi") App.initial)))).
    reflexivity.
Defined.
